(** * ezancestry: the Streamlit dashboard of [app.py]

    A shallow embedding of the pipeline of [app.py]: the pandas frames and
    numpy arrays the script passes around, its functions
    ([get_file_content_as_string], [get_1kg_samples], [encode_genotypes],
    [dimensionality_reduction], [filter_user_genotypes], [impute_missing],
    [vcf2df], [plot_3d]) and the script body [main], followed by the
    properties of the specification.

    Conventions.
    - A Python call that may raise returns a [result]; the script body
      runs in [App], which also threads the list of effects made so far
      (widgets rendered, files written).
    - float64 values are represented by their exact rational value, with a
      separate constructor for NaN.
    - The collaborators the script only calls (file system, cyvcf2, snps,
      scikit-learn, umap, MulticoreTSNE, Python's [float]) are the fields of
      [Libs]; every theorem holds for all of them unless it states a
      contract.
    - Row labels are strings; the labels 0, 1, ... of a default index are
      written in decimal. *)

From Stdlib Require Import QArith Qround Qabs Lqa.
From stdpp Require Import base option list gmap strings pretty.

Local Open Scope string_scope.
Local Open Scope list_scope.

(** ** Exceptions and fallible calls *)

Inductive exn : Type :=
| ValueError (msg : string)
| KeyError (key : string)
| IndexError (msg : string)
| TypeError (msg : string)
| AttributeError (msg : string)
| UnboundLocalError (name : string)
| OSError (msg : string)
| LibraryError (msg : string).

(** [str(e)], as interpolated in the f-string of the upload handler. *)
Definition exn_str (e : exn) : string :=
  match e with
  | ValueError m | IndexError m | TypeError m | AttributeError m
  | OSError m | LibraryError m => m
  | KeyError k => "'" +:+ k +:+ "'"
  | UnboundLocalError x =>
      "local variable '" +:+ x +:+ "' referenced before assignment"
  end.

Inductive result (A : Type) : Type :=
| Ok (a : A)
| Raise (e : exn).
Arguments Ok {A} a.
Arguments Raise {A} e.

#[global] Instance result_ret : MRet result := @Ok.
#[global] Instance result_bind : MBind result := fun A B f m =>
  match m with
  | Ok a => f a
  | Raise e => Raise e
  end.
#[global] Instance result_fmap : FMap result := fun A B f m =>
  match m with
  | Ok a => Ok (f a)
  | Raise e => Raise e
  end.

(** ** Cells, frames and arrays *)

Inductive float64 : Type :=
| Fin (q : Q)
| NaN.

Inductive cell : Type :=
| Str (s : string)
| Flt (x : float64).

(** The null of pandas ([np.nan]). *)
Definition null : cell := Flt NaN.

#[global] Instance Q_eq_dec : EqDecision Q.
Proof. solve_decision. Defined.
#[global] Instance float64_eq_dec : EqDecision float64.
Proof. solve_decision. Defined.
#[global] Instance cell_eq_dec : EqDecision cell.
Proof. solve_decision. Defined.

Definition isnull (c : cell) : bool :=
  match c with
  | Flt NaN => true
  | _ => false
  end.

(** A two-dimensional float array, row-major. *)
Abbreviation ndarray := (list (list float64)).

(** A pandas frame: row labels, column labels, and the cells row by row. *)
Record DataFrame : Type := mkDataFrame {
  index : list string;
  columns : list string;
  values : list (list cell)
}.

(** [pd.DataFrame(index=idx, columns=cols)]: every cell null. *)
Definition DataFrame_empty (idx cols : list string) : DataFrame :=
  {| index := idx;
     columns := cols;
     values := map (fun _ => map (fun _ => null) cols) idx |}.

(** [pd.DataFrame(data, columns=cols, index=idx)]: the shape of [data]
    has to agree with the labels. *)
Definition has_shape {A} (rows ncols : nat) (data : list (list A)) : bool :=
  bool_decide (length data = rows) &&
  forallb (fun row => bool_decide (length row = ncols)) data.

Definition DataFrame_of (data : list (list cell)) (cols idx : list string)
  : result DataFrame :=
  if has_shape (length idx) (length cols) data
  then Ok {| index := idx; columns := cols; values := data |}
  else Raise (ValueError "Shape of passed values does not match the labels").

Fixpoint mapM {A B} (f : A -> result B) (l : list A) : result (list B) :=
  match l with
  | [] => Ok []
  | a :: l' => b ← f a; bs ← mapM f l'; Ok (b :: bs)
  end.

Definition of_array (a : ndarray) : list (list cell) := map (map Flt) a.

(** Position of the first column called [c]. *)
Fixpoint col_pos (c : string) (cols : list string) : option nat :=
  match cols with
  | [] => None
  | c' :: cols' => if decide (c' = c) then Some 0%nat else S <$> col_pos c cols'
  end.

(** [df[c]]: the column [c] as a list of cells. *)
Definition getitem (df : DataFrame) (c : string) : result (list cell) :=
  match col_pos c (columns df) with
  | Some j => Ok (map (fun row => default null (row !! j)) (values df))
  | None => Raise (KeyError c)
  end.

(** One row of [df[c] = ...]: an existing column (each of them, when the
    label repeats) is overwritten in place, a new one goes last. *)
Definition assign_row (cols : list string) (c : string) (v : cell)
  (row : list cell) : list cell :=
  if decide (c ∈ cols)
  then zip_with (fun name old => if decide (name = c) then v else old) cols row
  else row ++ [v].

Definition assign_cols (cols : list string) (c : string) : list string :=
  if decide (c ∈ cols) then cols else cols ++ [c].

Definition nulls (n : nat) : list cell := replicate n null.

(** [df[c] = vals] for a list [vals]. A frame without rows takes its index
    from a non-empty [vals]: the labels 0, 1, ... of a default index, with
    the columns it already has filled with nulls. *)
Definition setitem (df : DataFrame) (c : string) (vals : list cell)
  : result DataFrame :=
  if decide (length vals = length (index df))
  then Ok {| index := index df;
             columns := assign_cols (columns df) c;
             values := zip_with (assign_row (columns df) c) vals (values df) |}
  else if decide (index df = [])
  then Ok {| index := map pretty (seq 0 (length vals));
             columns := assign_cols (columns df) c;
             values := map (fun v => assign_row (columns df) c v
                                                (nulls (length (columns df))))
                           vals |}
  else Raise (ValueError "Length of values does not match length of index").

(** [df[c] = v] for a scalar [v]. *)
Definition setitem_scalar (df : DataFrame) (c : string) (v : cell) : DataFrame :=
  {| index := index df;
     columns := assign_cols (columns df) c;
     values := map (assign_row (columns df) c v) (values df) |}.

(** [df.append(other)] for frames with the same columns. *)
Definition append (df other : DataFrame) : DataFrame :=
  {| index := index df ++ index other;
     columns := columns df;
     values := values df ++ values other |}.

(** The distinct elements of a list in order of first appearance
    ([Series.unique]); also the labels a run of [df[c] = ...] leaves on an
    empty frame. *)
Definition unique `{EqDecision A} (l : list A) : list A :=
  foldl (fun acc x => if decide (x ∈ acc) then acc else acc ++ [x]) [] l.

(** [np.concatenate((a, b))] along the rows: the widths have to agree. *)
Definition width {A} (a : list (list A)) : option nat :=
  match a with
  | [] => None
  | row :: _ => Some (length row)
  end.

Definition concatenate (a b : ndarray) : result ndarray :=
  match width a, width b with
  | Some n, Some m =>
      if decide (n = m) then Ok (a ++ b)
      else Raise (ValueError "all the input array dimensions except for the concatenation axis must match exactly")
  | _, _ => Ok (a ++ b)
  end.

(** ** Index joins *)

(** Labels in lexicographic order, as the outer join sorts them when it
    sorts. *)
Fixpoint insert_label (k : string) (l : list string) : list string :=
  match l with
  | [] => [k]
  | k' :: l' => if String.leb k k' then k :: l else k' :: insert_label k l'
  end.

Definition sort_labels (l : list string) : list string :=
  foldr insert_label [] l.

(** The rows of [df] labelled [k]. *)
Definition rows_at (df : DataFrame) (k : string) : list (list cell) :=
  omap (fun '(i, row) => if decide (i = k) then Some row else None)
       (zip (index df) (values df)).

(** The block of joined rows for one label: matching rows pair up, a label
    present on one side only is padded with nulls on the other. *)
Definition join_key (l r : DataFrame) (k : string) : list (list cell) :=
  match rows_at l k, rows_at r k with
  | [], rs => map (fun rr => nulls (length (columns l)) ++ rr) rs
  | ls, [] => map (fun lr => lr ++ nulls (length (columns r))) ls
  | ls, rs => flat_map (fun lr => map (fun rr => lr ++ rr) rs) ls
  end.

(** [l.join(r, how="outer")]: joins on the index; the result carries the
    columns of [l] followed by those of [r], and overlapping column labels
    are refused. When [r] has no rows the rows of [l] are kept as they are,
    and likewise for [l]; two equal indexes without repeated labels are
    kept in their order; in every other case the result is indexed by the
    sorted union of the two indexes. *)
Definition join_outer (l r : DataFrame) : result DataFrame :=
  if existsb (fun c => bool_decide (c ∈ columns r)) (columns l)
  then Raise (ValueError "columns overlap but no suffix specified")
  else if decide (index r = [])
  then Ok {| index := index l;
             columns := columns l ++ columns r;
             values := map (fun lr => lr ++ nulls (length (columns r))) (values l) |}
  else if decide (index l = [])
  then Ok {| index := index r;
             columns := columns l ++ columns r;
             values := map (fun rr => nulls (length (columns l)) ++ rr) (values r) |}
  else
    let keys := if decide (NoDup (index l) /\ index l = index r)
                then index l
                else sort_labels (remove_dups (index l ++ index r)) in
    let blocks := map (fun k => (k, join_key l r k)) keys in
    Ok {| index := flat_map (fun b => map (fun _ => b.1) b.2) blocks;
          columns := columns l ++ columns r;
          values := flat_map snd blocks |}.

(** The elements of [l] that [mask] keeps. *)
Fixpoint select {A} (mask : list bool) (l : list A) : list A :=
  match mask, l with
  | b :: mask', a :: l' => if b then a :: select mask' l' else select mask' l'
  | _, _ => []
  end.

(** A cell used as a label. *)
Definition label_of (c : cell) : string :=
  match c with
  | Str s => s
  | Flt (Fin _) => "<float>"
  | Flt NaN => "nan"
  end.

(** A list of labels as Python prints it. *)
Definition py_list (l : list string) : string :=
  "[" +:+ String.concat ", " (map (fun s => "'" +:+ s +:+ "'") l) +:+ "]".

(** [df.set_index(c)]: the column [c] becomes the index and leaves the
    columns. *)
Definition set_index (df : DataFrame) (c : string) : result DataFrame :=
  match col_pos c (columns df) with
  | None => Raise (KeyError ("None of " +:+ py_list [c] +:+ " are in the columns"))
  | Some j =>
      let col := map (fun row => default null (row !! j)) (values df) in
      let mask := map (fun c' => bool_decide (c' ≠ c)) (columns df) in
      Ok {| index := map label_of col;
            columns := select mask (columns df);
            values := map (select mask) (values df) |}
  end.

(** [df.drop(columns=cs)]: every label of [cs] has to be a column; the
    exception names all those that are not. *)
Definition drop_columns (df : DataFrame) (cs : list string) : result DataFrame :=
  match List.filter (fun c => bool_decide (c ∉ columns df)) cs with
  | [] =>
      let mask := map (fun c' => bool_decide (c' ∉ cs)) (columns df) in
      Ok {| index := index df;
            columns := select mask (columns df);
            values := map (select mask) (values df) |}
  | absent => Raise (KeyError (py_list absent +:+ " not found in axis"))
  end.

(** [df.columns = cs]. *)
Definition set_columns (df : DataFrame) (cs : list string) : result DataFrame :=
  if decide (length cs = length (columns df))
  then Ok {| index := index df; columns := cs; values := values df |}
  else Raise (ValueError "Length mismatch").

(** [df.loc[k] = row], setting with enlargement: rows labelled [k] are
    overwritten, and when there is none the row is added at the end. *)
Definition loc_set (df : DataFrame) (k : string) (row : list cell)
  : result DataFrame :=
  if decide (length row = length (columns df))
  then
    if decide (k ∈ index df)
    then Ok {| index := index df;
               columns := columns df;
               values := zip_with (fun i old => if decide (i = k) then row else old)
                                  (index df) (values df) |}
    else Ok {| index := index df ++ [k];
               columns := columns df;
               values := values df ++ [row] |}
  else Raise (ValueError "cannot set a row with mismatched columns").

(** ** Collaborators *)

(** One record of a variant file as cyvcf2 yields it. *)
Record Variant : Type := mkVariant {
  ID : string;
  gt_bases : list string
}.

Record VCFfile : Type := mkVCF {
  samples : list string;
  variants : list Variant
}.

(** One row of the frame of the genotype parser ([SNPs(...).snps]); the frame
    is indexed by rsid, which the parser keeps unique. *)
Record SNP : Type := mkSNP {
  chrom : string;
  pos : Z;
  genotype : cell
}.

(** The reducers of [dimensionality_reduction], as constructed there. *)
Inductive estimator : Type :=
| PCA (n_components : nat)
| TSNE (n_components n_jobs : nat)
| UMAP (n_components : nat) (min_dist : Q) (metric : string) (random_state : Z).

Definition n_components_of (est : estimator) : nat :=
  match est with
  | PCA n | TSNE n _ | UMAP n _ _ _ => n
  end.

Record KNeighborsClassifier : Type := mkKNN {
  n_neighbors : nat;
  weights : string;
  n_jobs : nat
}.

(** What the script calls and does not define. A fitted reducer and a fitted
    classifier are objects of the library; the script only passes them on.
    [open_lines] reads a file, [open_w] opens one for writing (which empties
    it), [copyfileobj] is what the script does with the open file: rewinding
    the upload, copying it into the file and closing the file; and
    [float_of_str] is Python's [float] on a string, as the numeric libraries
    apply it to the string cells of a table ([None] when it raises). *)
Record Libs : Type := mkLibs {
  open_lines : string -> result (list string);
  open_w : string -> result unit;
  copyfileobj : string -> result unit;
  float_of_str : string -> option float64;
  read_csv : string -> result DataFrame;
  VCF : string -> result VCFfile;
  SNPs : string -> result (gmap string SNP);
  Reducer : Type;
  fit_transform : estimator -> ndarray -> result (ndarray * Reducer);
  transform : Reducer -> ndarray -> result ndarray;
  KNNImputer_fit_transform : nat -> ndarray -> result ndarray;
  Classifier : Type;
  knn_fit : KNeighborsClassifier -> ndarray -> list cell -> result Classifier;
  predict : Classifier -> ndarray -> result (list cell);
  predict_proba : Classifier -> ndarray -> result ndarray;
  classes_ : Classifier -> list cell
}.

(** ** The one-hot encoder

    [OneHotEncoder(cols=..., handle_missing="return_nan")] of
    category_encoders: fitting records, for every encoded column, its
    categories in order of first appearance; transforming replaces the column
    by one indicator column per category, a null cell giving NaN in each of
    them (this is [handle_missing="return_nan"]) and an unseen category 0 in
    each of them; it refuses a table whose number of columns is not the one
    it was fitted on. *)
Record OneHotEncoder : Type := mkOHE {
  cols : list string;
  handle_missing : string;
  _dim : nat;
  mapping : list (string * list cell)
}.

Definition categories (col : list cell) : list cell :=
  unique (List.filter (fun c => negb (isnull c)) col).

Definition ohe_fit (cs : list string) (missing : string) (X : DataFrame)
  : result OneHotEncoder :=
  m ← mapM (fun c => col ← getitem X c; Ok (c, categories col)) cs;
  Ok {| cols := cs; handle_missing := missing;
        _dim := length (columns X); mapping := m |}.

Definition indicator (missing : string) (cats : list cell) (v : cell)
  : list cell :=
  if isnull v
  then map (fun _ => if decide (missing = "return_nan") then null
                     else Flt (Fin 0)) cats
  else map (fun c => Flt (Fin (if decide (c = v) then 1 else 0))) cats.

Definition indicator_names (c : string) (cats : list cell) : list string :=
  imap (fun i _ => c +:+ "_" +:+ pretty (S i)) cats.

Definition ohe_transform (ohe : OneHotEncoder) (X : DataFrame)
  : result DataFrame :=
  if decide (length (columns X) = _dim ohe)
  then
    blocks ← mapM (fun '(c, cats) =>
                     col ← getitem X c;
                     Ok (indicator_names c cats,
                         map (indicator (handle_missing ohe) cats) col))
                  (mapping ohe);
    Ok {| index := index X;
          columns := flat_map fst blocks;
          values := foldr (fun b acc => zip_with app b.2 acc)
                          (map (fun _ => []) (index X)) blocks |}
  else Raise (ValueError ("Unexpected input dimension "
                          +:+ pretty (length (columns X))
                          +:+ ", expected " +:+ pretty (_dim ohe))).

Definition ohe_fit_transform (cs : list string) (missing : string)
  (X : DataFrame) : result (DataFrame * OneHotEncoder) :=
  ohe ← ohe_fit cs missing X;
  Xt ← ohe_transform ohe X;
  Ok (Xt, ohe).

(** ** What the script renders *)

(** The figure [plot_3d] returns: the table handed to [px.scatter_3d], the
    column that colours and shapes the markers, and the marker size forced
    with [update_traces], if any. *)
Record Figure : Type := mkFigure {
  fig_data : DataFrame;
  fig_color : string;
  fig_marker_size : option nat
}.

(** What a run leaves behind: the widgets on the page, in order, and the
    files written ([file_write path content]: the file holds [content] from
    then on). *)
Inductive effect : Type :=
| st_markdown (body : string)
| st_error (msg : string)
| st_plotly_chart (fig : Figure)
| st_subheader (body : string)
| st_text (body : string)
| st_dataframe (df : DataFrame)
| file_write (path content : string).

(** The script body: the effects so far are threaded, and an exception stops
    the run with the effects already made. *)
Definition App (A : Type) : Type := list effect -> list effect * result A.

#[global] Instance App_ret : MRet App := fun A a tr => (tr, Ok a).
#[global] Instance App_bind : MBind App := fun A B f m tr =>
  match m tr with
  | (tr', Ok a) => f a tr'
  | (tr', Raise e) => (tr', Raise e)
  end.

Definition call {A} (r : result A) : App A := fun tr => (tr, r).
Definition emit (e : effect) : App unit := fun tr => (tr ++ [e], Ok tt).

(** [try: body except Exception as e: handler]. *)
Definition try_except {A} (body : App A) (handler : exn -> App A) : App A :=
  fun tr =>
    match body tr with
    | (tr', Raise e) => handler e tr'
    | r => r
    end.

(** Reading a local variable of [main] that an earlier branch may have left
    unassigned. *)
Definition read_local {A} (name : string) (v : option A) : App A :=
  match v with
  | Some a => call (Ok a)
  | None => call (Raise (UnboundLocalError name))
  end.

(** The controls of the sidebar, as the user left them. A radio button
    returns one of its options. *)
Inductive aisnp_choice : Type := Kidd | Seldin.
Inductive reduction_choice : Type := radio_PCA | radio_UMAP | radio_TSNE.
Inductive level_choice : Type := super_population | population.

Definition aisnp_label (c : aisnp_choice) : string :=
  match c with
  | Kidd => "Kidd et al. 55 AISNPs"
  | Seldin => "Seldin et al. 128 AISNPs"
  end.

Definition reduction_label (c : reduction_choice) : string :=
  match c with
  | radio_PCA => "PCA"
  | radio_UMAP => "UMAP"
  | radio_TSNE => "t-SNE"
  end.

Definition level_label (c : level_choice) : string :=
  match c with
  | super_population => "super population"
  | population => "population"
  end.

Record Sidebar : Type := mkSidebar {
  aisnp_radio : aisnp_choice;
  reduction_radio : reduction_choice;
  level_radio : level_choice;
  file_uploader : option string;
  show_user_gts : bool;
  show_1kg : bool
}.

(** ** numpy helpers of the script *)

(** The float array of a table, as the numeric libraries convert their
    input: a float cell is taken as it is, a string cell goes through
    [float]. *)
Definition to_float (L : Libs) (c : cell) : result float64 :=
  match c with
  | Flt x => Ok x
  | Str s =>
      match float_of_str L s with
      | Some x => Ok x
      | None => Raise (ValueError ("could not convert string to float: '"
                                   +:+ s +:+ "'"))
      end
  end.

Definition asarray (L : Libs) (data : list (list cell)) : result ndarray :=
  mapM (mapM (to_float L)) data.

(** Round half to even, as [np.rint] does. *)
Definition rint_Q (q : Q) : Z :=
  let f := Qfloor q in
  match Qcompare (q - inject_Z f) (1 # 2) with
  | Lt => f
  | Gt => (f + 1)%Z
  | Eq => if Z.even f then f else (f + 1)%Z
  end.

Definition rint (x : float64) : float64 :=
  match x with
  | Fin q => Fin (inject_Z (rint_Q q))
  | NaN => NaN
  end.

(** [np.hstack((a, b))]: the row counts have to agree. *)
Definition hstack (a b : list (list cell)) : result (list (list cell)) :=
  if decide (length a = length b)
  then Ok (zip_with app a b)
  else Raise (ValueError "all the input array dimensions except for the concatenation axis must match exactly").

(** [gt.replace("|", "")]. *)
Fixpoint remove_bar (s : string) : string :=
  match s with
  | EmptyString => EmptyString
  | String a s' =>
      if Ascii.eqb a (Ascii.ascii_of_nat 124) then remove_bar s' else String a (remove_bar s')
  end.

(** [pd.DataFrame(X, index=idx)] for a frame [X]: the rows of [X] picked by
    label. *)
Definition reindex (X : DataFrame) (idx : list string) : DataFrame :=
  if decide (index X = idx) then X
  else {| index := idx;
          columns := columns X;
          values := map (fun k => match rows_at X k with
                                  | row :: _ => row
                                  | [] => nulls (length (columns X))
                                  end) idx |}.

(** [df[c].loc[k] = v]. *)
Definition loc_set_cell (df : DataFrame) (c k : string) (v : cell) : DataFrame :=
  {| index := index df;
     columns := columns df;
     values := zip_with (fun i row => if decide (i = k)
                                      then zip_with (fun name old => if decide (name = c) then v else old)
                                                    (columns df) row
                                      else row)
                        (index df) (values df) |}.

(** [px.scatter_3d(df, x=..., y=..., z=..., color=pop, symbol=pop, size="size")]. *)
Definition scatter_3d (df : DataFrame) (pop : string) : result Figure :=
  if decide (pop ∈ columns df)
  then Ok {| fig_data := df; fig_color := pop; fig_marker_size := None |}
  else Raise (ValueError "Value of 'color' is not the name of a column in 'data_frame'").

Definition nl : string := String (Ascii.ascii_of_nat 10) EmptyString.

(** ** The functions of [app.py] *)

Section app.

Context (L : Libs).

Definition get_file_content_as_string (mdfile : string) : result string :=
  lines ← open_lines L mdfile;
  let mdstring := foldl (fun acc line => acc +:+ line) "" lines in
  Ok mdstring.

Definition get_1kg_samples : result DataFrame :=
  let onekg_samples := "data/integrated_call_samples_v3.20130502.ALL.panel" in
  dfsamples ← read_csv L onekg_samples;
  dfsamples ← set_index dfsamples "sample";
  dfsamples ← drop_columns dfsamples ["Unnamed: 4"; "Unnamed: 5"];
  dfsamples ← set_columns dfsamples ["population"; "super population"; "gender"];
  Ok dfsamples.

Definition encode_genotypes (df : DataFrame) : result (DataFrame * OneHotEncoder) :=
  '(X, ohe) ← ohe_fit_transform (columns df) "return_nan" df;
  Ok (reindex X (index df), ohe).

Definition dimensionality_reduction (X : DataFrame) (algorithm : string)
  : result (option DataFrame * option (estimator * Reducer L)) :=
  let n_components := 3%nat in
  let reducer :=
    if decide (algorithm = "PCA") then Some (PCA n_components)
    else if decide (algorithm = "t-SNE") then Some (TSNE n_components 4)
    else if decide (algorithm = "UMAP")
         then Some (UMAP n_components (2 # 10) "dice" 42)
    else None in
  match reducer with
  | None => Ok (None, None)
  | Some reducer =>
      X_values ← asarray L (values X);
      '(X_reduced, fitted) ← fit_transform L reducer X_values;
      df ← DataFrame_of (of_array X_reduced) ["x"; "y"; "z"] (index X);
      Ok (Some df, Some (reducer, fitted))
  end.

(** [reducer.transform(X)] on the object [dimensionality_reduction]
    returned: the estimator it constructed, fitted. [PCA] and [umap.UMAP]
    have the method; [MulticoreTSNE] has [fit] and [fit_transform] only. *)
Definition reducer_transform (reducer : estimator * Reducer L) (X : ndarray)
  : result ndarray :=
  match reducer.1 with
  | TSNE _ _ =>
      Raise (AttributeError "'MulticoreTSNE' object has no attribute 'transform'")
  | _ => transform L reducer.2 X
  end.

Definition filter_user_genotypes (userdf : gmap string SNP)
  (aisnps_1kg : DataFrame) : DataFrame * DataFrame :=
  let user_record := DataFrame_empty ["your_sample"] (columns aisnps_1kg) in
  let user_record :=
    foldl (fun user_record snp =>
             match userdf !! snp with
             | Some row => setitem_scalar user_record snp (genotype row)
             | None => user_record
             end)
          user_record (columns user_record) in
  let aisnps_1kg := append aisnps_1kg user_record in
  (user_record, aisnps_1kg).

Definition impute_missing (aisnps_1kg : ndarray) : result (list float64) :=
  imputed_aisnps ← KNNImputer_fit_transform L 9 aisnps_1kg;
  match last imputed_aisnps with
  | Some row => Ok (map rint row)
  | None => Raise (IndexError "index -1 is out of bounds for axis 0 with size 0")
  end.

Definition vcf2df (vcf_fname : string) (dfsamples : DataFrame) : result DataFrame :=
  vcf_file ← VCF L vcf_fname;
  let df := DataFrame_empty (samples vcf_file) [] in
  df ← foldl (fun acc variant =>
                df ← acc;
                setitem df (ID variant)
                        (map (fun gt => Str (remove_bar gt)) (gt_bases variant)))
             (Ok df) (variants vcf_file);
  df ← join_outer df dfsamples;
  Ok df.

Definition plot_3d (X_reduced : list (list cell)) (dfsamples : DataFrame)
  (pop : string) : result Figure :=
  X ← hstack X_reduced (values dfsamples);
  let columns := ["component_1"; "component_2"; "component_3";
                  "population"; "super population"; "gender"] in
  df ← DataFrame_of X columns (index dfsamples);
  let df := setitem_scalar df "size" (Flt (Fin 16)) in
  let df := if decide ("me" ∈ index dfsamples)
            then loc_set_cell df "size" "me" (Flt (Fin 75))
            else df in
  fig ← scatter_3d df pop;
  let fig := if decide ("me" ∉ index dfsamples)
             then {| fig_data := fig_data fig; fig_color := fig_color fig;
                     fig_marker_size := Some 2%nat |}
             else fig in
  Ok fig.

(** A variable holding [None] where the script needs an object. *)
Definition not_None {A} (what : string) (v : option A) : App A :=
  match v with
  | Some a => call (Ok a)
  | None => call (Raise (TypeError ("'NoneType' object: " +:+ what)))
  end.

(** [a[0]]. *)
Definition getitem0 {A} (a : list A) : result A :=
  match a with
  | x :: _ => Ok x
  | [] => Raise (IndexError "index 0 is out of bounds for axis 0 with size 0")
  end.

(** The script body. The sidebar controls are inputs ([ui]); spinners and
    the sidebar title leave nothing on the page and are not recorded. In the
    [try] block, opening the file leaves it empty and the copy fills it;
    what a copy that raises has written by then is not recorded. The
    encoded tables are converted to float arrays where they are stacked, as
    the imputer converts its input. *)
Definition main (ui : Sidebar) : App unit :=
  readme_text ← call (get_file_content_as_string "intro.md");
  emit (st_markdown readme_text);;
  dfsamples ← call get_1kg_samples;
  let aisnp_set := aisnp_label (aisnp_radio ui) in
  aisnps_1kg ←
    (if decide (aisnp_set = "Kidd et al. 55 AISNPs")
     then df ← call (vcf2df "data/Kidd.55AISNP.1kG.vcf" dfsamples); mret (Some df)
     else if decide (aisnp_set = "Seldin et al. 128 AISNPs")
     then df ← call (vcf2df "data/Seldin.128AISNP.1kG.vcf" dfsamples); mret (Some df)
     else mret None);
  aisnps_1kg ← read_local "aisnps_1kg" aisnps_1kg;
  '(X_encoded, encoder) ← call (encode_genotypes aisnps_1kg);
  let dimensionality_reduction_method := reduction_label (reduction_radio ui) in
  '(X_reduced, reducer) ←
    call (dimensionality_reduction X_encoded dimensionality_reduction_method);
  let population_level := level_label (level_radio ui) in
  let knn := {| n_neighbors := 9; weights := "distance"; n_jobs := 2 |} in
  let user_file := file_uploader ui in
  aisnps_1kg ←
    match user_file with
    | Some upload =>
        '(userdf, user_file) ←
          try_except
            (call (open_w L "user_snps_file.txt");;
             emit (file_write "user_snps_file.txt" "");;
             call (copyfileobj L upload);;
             emit (file_write "user_snps_file.txt" upload);;
             userdf ← call (SNPs L upload);
             mret (Some userdf, Some upload))
            (fun e =>
               emit (st_error ("Sorry, there was a problem processing your genotypes file."
                               +:+ nl +:+ " " +:+ exn_str e));;
               mret (None, None));
        userdf ← read_local "userdf" userdf;
        let '(user_record, aisnps_1kg) := filter_user_genotypes userdf aisnps_1kg in
        user_encoded ← call (ohe_transform encoder user_record);
        X_encoded ← call (a ← asarray L (values X_encoded);
                          b ← asarray L (values user_encoded);
                          concatenate a b);
        user_imputed ← call (impute_missing X_encoded);
        reducer ← not_None "transform" reducer;
        user_reduced ← call (reducer_transform reducer [user_imputed]);
        X_reference ← not_None "fit" X_reduced;
        knn ← call (y ← getitem dfsamples population_level;
                    X ← asarray L (values X_reference);
                    knn_fit L knn X y);
        X_reduced ← call (X ← asarray L (values X_reference);
                          concatenate X user_reduced);
        dfsamples ← call (loc_set dfsamples "me" [Str "me"; Str "me"; Str "me"]);
        plotly_3d ← call (plot_3d (of_array X_reduced) dfsamples population_level);
        emit (st_plotly_chart plotly_3d);;
        user_pop ← call (labels ← predict L knn user_reduced; getitem0 labels);
        emit (st_subheader ("Your predicted " +:+ population_level));;
        emit (st_text ("Your predicted population using KNN classifier is "
                       +:+ label_of user_pop));;
        emit (st_subheader ("Your predicted " +:+ population_level
                            +:+ " probabilities"));;
        user_pop_probs ← call (predict_proba L knn user_reduced);
        user_probs_df ← call (probs ← getitem0 user_pop_probs;
                              DataFrame_of [map Flt probs]
                                           (map label_of (classes_ L knn)) ["me"]);
        emit (st_dataframe user_probs_df);;
        (if show_user_gts ui
         then emit (st_subheader "Genotypes of Ancestry-Informative SNPs in Your Sample");;
              emit (st_dataframe user_record)
         else mret tt);;
        mret aisnps_1kg
    | None =>
        X_reference ← not_None "hstack" X_reduced;
        plotly_3d ← call (plot_3d (values X_reference) dfsamples population_level);
        emit (st_plotly_chart plotly_3d);;
        mret aisnps_1kg
    end;
  (if show_1kg ui
   then emit (st_subheader "Genotypes of Ancestry-Informative SNPs in 1000 Genomes Project Samples");;
        emit (st_dataframe aisnps_1kg)
   else mret tt);;
  readme_text ← call (get_file_content_as_string "details.md");
  emit (st_markdown readme_text).

End app.

(** ** Vocabulary of the properties *)

(** The variant file of each panel. *)
Definition panel_file (c : aisnp_choice) : string :=
  match c with
  | Kidd => "data/Kidd.55AISNP.1kG.vcf"
  | Seldin => "data/Seldin.128AISNP.1kG.vcf"
  end.

(** The estimator the selector constructs for each of the three names. *)
Definition selected (algorithm : string) (est : estimator) : Prop :=
  (algorithm = "PCA" /\ est = PCA 3) \/
  (algorithm = "t-SNE" /\ est = TSNE 3 4) \/
  (algorithm = "UMAP" /\ est = UMAP 3 (2 # 10) "dice" 42).

(** The [try] block of [main] raises [e] on the upload, having made the
    file effects [written]: opening the file fails, or the copy fails, or
    the parser refuses the copy. *)
Definition try_raises (L : Libs) (upload : string) (written : list effect)
  (e : exn) : Prop :=
  (open_w L "user_snps_file.txt" = Raise e /\ written = []) \/
  (open_w L "user_snps_file.txt" = Ok tt /\ copyfileobj L upload = Raise e /\
   written = [file_write "user_snps_file.txt" ""]) \/
  (open_w L "user_snps_file.txt" = Ok tt /\ copyfileobj L upload = Ok tt /\
   SNPs L upload = Raise e /\
   written = [file_write "user_snps_file.txt" "";
              file_write "user_snps_file.txt" upload]).

(** The genotype the upload has for a panel column, null when it has none. *)
Definition uploaded (userdf : gmap string SNP) (snp : string) : cell :=
  from_option genotype null (userdf !! snp).

(** [y] is an integer closest to [x]; NaN stays NaN. *)
Definition nearest_integer (x y : float64) : Prop :=
  match x, y with
  | Fin q, Fin r => exists n : Z, r = inject_Z n /\ (Qabs (inject_Z n - q) <= 1 # 2)%Q
  | NaN, NaN => True
  | _, _ => False
  end.

(** The three component columns of the table a figure plots. *)
Definition embedding (fig : Figure) : list (list cell) :=
  map (take 3) (values (fig_data fig)).

(** The marker size [plot_3d] gives the row labelled [i]. *)
Definition marker_size (i : string) : cell :=
  Flt (Fin (if decide (i = "me") then 75 else 16)).

(** The columns of the table [plot_3d] hands to [px.scatter_3d]. *)
Definition plot_columns : list string :=
  ["component_1"; "component_2"; "component_3";
   "population"; "super population"; "gender"; "size"].

(** The genotype cells of the [i]-th sample of a variant file: its call at
    every record, in file order, without the phase bars. *)
Definition genotype_row (vcf : VCFfile) (i : nat) : list cell :=
  map (fun v => Str (remove_bar (default "" (gt_bases v !! i)))) (variants vcf).

(** The phase bar of a genotype call. *)
Definition bar : Ascii.ascii := Ascii.ascii_of_nat 124.

(** A cell that holds a float (a number or NaN), not a string. *)
Definition is_float (c : cell) : Prop := exists x, c = Flt x.

(** ** A small instance of the collaborators

    Two reference samples genotyped at two variants, stand-ins for the
    numeric libraries (the reducers keep the first three features, the
    imputer fills a missing value with zero, the classifier votes with the
    first reference sample), and a parser that refuses the upload ["bad"]. *)
Module Demo.

Definition panel : DataFrame :=
  {| index := ["0"; "1"];
     columns := ["sample"; "pop"; "super_pop"; "gender"; "Unnamed: 4"; "Unnamed: 5"];
     values := [ [Str "HG1"; Str "GBR"; Str "EUR"; Str "male"; null; null];
                 [Str "HG2"; Str "YRI"; Str "AFR"; Str "female"; null; null] ] |}.

(** Sample metadata that also lists a sample absent from the variant file. *)
Definition dfsamples3 : DataFrame :=
  {| index := ["HG1"; "HG2"; "HG3"];
     columns := ["population"; "super population"; "gender"];
     values := [ [Str "GBR"; Str "EUR"; Str "male"];
                 [Str "YRI"; Str "AFR"; Str "female"];
                 [Str "CHB"; Str "EAS"; Str "female"] ] |}.

Definition vcf : VCFfile :=
  {| samples := ["HG1"; "HG2"];
     variants := [ {| ID := "rs1"; gt_bases := ["A|A"; "A|G"] |};
                   {| ID := "rs2"; gt_bases := ["C|C"; "C|T"] |} ] |}.

Definition upload : gmap string SNP :=
  {[ "rs1" := {| chrom := "1"; pos := 100; genotype := Str "AG" |};
     "rs9" := {| chrom := "2"; pos := 900; genotype := Str "TT" |} ]}.

Definition pad3 (row : list float64) : list float64 :=
  take 3 (row ++ replicate 3 (Fin 0)).

Definition fill0 (x : float64) : float64 :=
  match x with
  | NaN => Fin 0
  | _ => x
  end.

Definition libs : Libs :=
  {| open_lines := fun f =>
       if decide (f = "intro.md") then Ok ["# ezancestry"; nl]
       else if decide (f = "details.md") then Ok ["details"]
       else Raise (OSError "No such file or directory");
     open_w := fun _ => Ok tt;
     copyfileobj := fun _ => Ok tt;
     float_of_str := fun s =>
       if decide (s = "0") then Some (Fin 0)
       else if decide (s = "1") then Some (Fin 1)
       else None;
     read_csv := fun f =>
       if decide (f = "data/integrated_call_samples_v3.20130502.ALL.panel")
       then Ok panel else Raise (OSError "No such file or directory");
     VCF := fun f =>
       if decide (f = "data/Kidd.55AISNP.1kG.vcf") then Ok vcf
       else Raise (OSError "No such file or directory");
     SNPs := fun content =>
       if decide (content = "bad") then Raise (LibraryError "no SNPs loaded")
       else Ok upload;
     Reducer := estimator;
     fit_transform := fun est X => Ok (map pad3 X, est);
     transform := fun _ X => Ok (map pad3 X);
     KNNImputer_fit_transform := fun _ X => Ok (map (map fill0) X);
     Classifier := list cell;
     knn_fit := fun _ X y =>
       if decide (length X = length y) then Ok y
       else Raise (ValueError "Found input variables with inconsistent numbers of samples");
     predict := fun y X => Ok (map (fun _ => default null (head y)) X);
     predict_proba := fun y X =>
       Ok (map (fun _ => imap (fun i _ => Fin (if decide (i = 0%nat) then 1 else 0))
                              (remove_dups y)) X);
     classes_ := fun y => remove_dups y |}.

Definition genotypes : DataFrame :=
  {| index := ["HG1"; "HG2"];
     columns := ["rs1"; "rs2"];
     values := [ [Str "AA"; Str "CC"]; [Str "AG"; Str "CT"] ] |}.

(** An encoded table and a matrix with a missing value to run the numeric
    steps on. *)
Definition encoded : DataFrame :=
  {| index := ["HG1"; "HG2"];
     columns := ["rs1_1"; "rs1_2"; "rs2_1"; "rs2_2"];
     values := [ [Flt (Fin 1); Flt (Fin 0); Flt (Fin 1); Flt (Fin 0)];
                 [Flt (Fin 0); Flt (Fin 1); Flt (Fin 0); Flt (Fin 1)] ] |}.

Definition combined : ndarray :=
  [ [Fin 1; Fin 0; NaN];
    [Fin (1 # 2); Fin (7 # 10); Fin (5 # 2)] ].

Definition ui (upload : option string) : Sidebar :=
  {| aisnp_radio := Kidd;
     reduction_radio := radio_PCA;
     level_radio := population;
     file_uploader := upload;
     show_user_gts := true;
     show_1kg := false |}.

(** The same controls with t-SNE selected. *)
Definition ui_tsne (upload : option string) : Sidebar :=
  {| aisnp_radio := Kidd;
     reduction_radio := radio_TSNE;
     level_radio := population;
     file_uploader := upload;
     show_user_gts := true;
     show_1kg := false |}.

(** The same collaborators reading another panel file and variant file. *)
Definition libs_of (csv : result DataFrame) (v : result VCFfile) : Libs :=
  mkLibs (open_lines libs) (open_w libs) (copyfileobj libs) (float_of_str libs)
         (fun _ => csv) (fun _ => v) (SNPs libs)
         (Reducer libs) (fit_transform libs) (transform libs)
         (KNNImputer_fit_transform libs) (Classifier libs)
         (knn_fit libs) (predict libs) (predict_proba libs) (classes_ libs).

(** A variant file with a record named like a metadata column. *)
Definition vcf_gender : VCFfile :=
  {| samples := ["HG1"; "HG2"];
     variants := [ {| ID := "rs1"; gt_bases := ["A|A"; "A|G"] |};
                   {| ID := "gender"; gt_bases := ["C|C"; "C|T"] |} ] |}.

(** A panel file that cannot be read. *)
Definition libs_no_panel : Libs :=
  libs_of (Raise (OSError "No such file or directory")) (Ok vcf).

(** A working directory that cannot be written to. *)
Definition libs_read_only : Libs :=
  mkLibs (open_lines libs) (fun _ => Raise (OSError "Permission denied"))
         (copyfileobj libs) (float_of_str libs) (read_csv libs) (VCF libs)
         (SNPs libs) (Reducer libs) (fit_transform libs) (transform libs)
         (KNNImputer_fit_transform libs) (Classifier libs)
         (knn_fit libs) (predict libs) (predict_proba libs) (classes_ libs).

End Demo.

(** * Properties *)

(** ** Generic facts about [result] and shapes *)

Lemma has_shape_spec {A} (rows ncols : nat) (data : list (list A)) :
  has_shape rows ncols data = true <->
  length data = rows /\ Forall (fun row => length row = ncols) data.
Proof.
  unfold has_shape. rewrite andb_true_iff, bool_decide_eq_true.
  assert (forallb (fun row => bool_decide (length row = ncols)) data = true
          <-> Forall (fun row => length row = ncols) data) as ->; [|done].
  induction data as [|row data IH]; simpl.
  - split; auto.
  - rewrite andb_true_iff, bool_decide_eq_true, Forall_cons, IH. done.
Qed.

Lemma DataFrame_of_Ok data cols idx df :
  DataFrame_of data cols idx = Ok df ->
  df = {| index := idx; columns := cols; values := data |} /\
  length data = length idx /\
  Forall (fun row => length row = length cols) data.
Proof.
  unfold DataFrame_of. destruct (has_shape _ _ _) eqn:Hs; [|discriminate].
  intros [= <-]. apply has_shape_spec in Hs. tauto.
Qed.

Lemma of_array_shape (rows ncols : nat) (M : ndarray) :
  has_shape rows ncols (of_array M) = has_shape rows ncols M.
Proof.
  unfold has_shape, of_array. rewrite length_map. f_equal.
  induction M as [|row M IH]; simpl; [done|].
  by rewrite length_map, IH.
Qed.

Lemma result_bind_Ok {A B} (m : result A) (f : A -> result B) (b : B) :
  m ≫= f = Ok b -> exists a, m = Ok a /\ f a = Ok b.
Proof. destruct m as [a|e]; [|discriminate]. intros Hf. by exists a. Qed.

Lemma mapM_Ok {A B} (f : A -> result B) (l : list A) (l' : list B) :
  mapM f l = Ok l' -> Forall2 (fun a b => f a = Ok b) l l'.
Proof.
  revert l'. induction l as [|a l IH]; simpl; intros l' Hl.
  - injection Hl as <-. constructor.
  - apply result_bind_Ok in Hl as (b & Hb & Hl).
    apply result_bind_Ok in Hl as (bs & Hbs & Hl). injection Hl as <-.
    constructor; auto.
Qed.

Lemma mapM_Raise {A B} (f : A -> result B) (l : list A) :
  (exists a, a ∈ l /\ exists e, f a = Raise e) ->
  exists a e, a ∈ l /\ f a = Raise e /\ mapM f l = Raise e.
Proof.
  induction l as [|a l IH]; intros (a' & Ha' & e' & He').
  - by apply elem_of_nil in Ha'.
  - simpl. destruct (f a) as [b|e] eqn:Hfa.
    + apply elem_of_cons in Ha' as [->|Ha']; [congruence|].
      destruct IH as (a2 & e2 & Ha2 & Hf2 & Hm2); [eauto|].
      exists a2, e2. split_and!; [by apply list_elem_of_further|done|].
      simpl. by rewrite Hm2.
    + exists a, e. split_and!; [apply list_elem_of_here|done|done].
Qed.

Lemma string_length_app (s t : string) :
  String.length (s +:+ t) = (String.length s + String.length t)%nat.
Proof.
  induction s as [|a s IH]; [done|].
  change (S (String.length (s +:+ t)) = S (String.length s + String.length t)).
  by f_equal.
Qed.

Lemma shortest_label (cs : list string) :
  cs <> [] ->
  exists c, c ∈ cs /\
            forall c', c' ∈ cs -> (String.length c <= String.length c')%nat.
Proof.
  induction cs as [|c cs IH]; [done|]. intros _.
  destruct cs as [|c2 cs].
  - exists c. split; [apply list_elem_of_here|].
    by intros c' ->%list_elem_of_singleton.
  - destruct IH as (m & Hm & Hmin); [done|].
    destruct (decide (String.length c <= String.length m)%nat).
    + exists c. split; [apply list_elem_of_here|].
      intros c' [->|Hc']%elem_of_cons; [done|].
      specialize (Hmin c' Hc'). lia.
    + exists m. split; [by apply list_elem_of_further|].
      intros c' [->|Hc']%elem_of_cons; [lia|by apply Hmin].
Qed.

Lemma col_pos_None (c : string) (cs : list string) :
  col_pos c cs = None <-> c ∉ cs.
Proof.
  induction cs as [|c' cs IH]; simpl.
  - split; [intros _; apply not_elem_of_nil|done].
  - rewrite not_elem_of_cons. case_decide as Hc.
    + split; [done|]. intros [Hne _]. by subst.
    + destruct (col_pos c cs); simpl.
      * split; [done|]. intros [_ Hn]. by apply IH in Hn.
      * split; [|done]. intros _. split; [by intros ->|]. by apply IH.
Qed.

(** ** The reducer *)

(** C6. An algorithm name other than PCA, UMAP and t-SNE makes
    [dimensionality_reduction] return [(None, None)]: no exception, no
    reduced table and no reducer, whatever the input table and the
    libraries are. *)
Theorem dimensionality_reduction_unknown (L : Libs) (X : DataFrame)
  (algorithm : string) :
  algorithm <> "PCA" -> algorithm <> "UMAP" -> algorithm <> "t-SNE" ->
  dimensionality_reduction L X algorithm = Ok (None, None).
Proof.
  intros Hpca Humap Htsne. unfold dimensionality_reduction.
  repeat case_decide; congruence.
Qed.

Lemma dimensionality_reduction_unknown_witness :
  dimensionality_reduction Demo.libs Demo.dfsamples3 "pca" = Ok (None, None).
Proof.
  apply (dimensionality_reduction_unknown Demo.libs Demo.dfsamples3 "pca");
    discriminate.
Defined.

Lemma dimensionality_reduction_known (L : Libs) (X : DataFrame)
  (algorithm : string) (est : estimator) :
  selected algorithm est ->
  dimensionality_reduction L X algorithm =
    (X_values ← asarray L (values X);
     '(X_reduced, fitted) ← fit_transform L est X_values;
     df ← DataFrame_of (of_array X_reduced) ["x"; "y"; "z"] (index X);
     Ok (Some df, Some (est, fitted))).
Proof.
  unfold dimensionality_reduction.
  intros [[-> ->]|[[-> ->]|[-> ->]]]; reflexivity.
Qed.

Lemma selected_total (algorithm : string) :
  algorithm ∈ ["PCA"; "UMAP"; "t-SNE"] -> exists est, selected algorithm est.
Proof.
  unfold selected. rewrite !elem_of_cons, elem_of_nil.
  intros [->|[->|[->|[]]]]; eauto 6.
Qed.

(** C3. For each of PCA, UMAP and t-SNE and every input table, whatever
    [dimensionality_reduction] returns is a table with exactly the three
    columns x, y, z, one row per input row label and three cells in every
    row, together with the fitted reducer; and it does return whenever the
    table converts to a float array and the library's [fit_transform]
    yields one three-component row per input row. *)
Theorem dimensionality_reduction_three_columns (L : Libs) (X : DataFrame)
  (algorithm : string) :
  algorithm ∈ ["PCA"; "UMAP"; "t-SNE"] ->
  (forall out, dimensionality_reduction L X algorithm = Ok out ->
     exists df reducer, out = (Some df, Some reducer) /\
       columns df = ["x"; "y"; "z"] /\ index df = index X /\
       length (values df) = length (index X) /\
       Forall (fun row => length row = 3%nat) (values df)) /\
  (forall est X_values X_reduced reducer,
     selected algorithm est ->
     asarray L (values X) = Ok X_values ->
     fit_transform L est X_values = Ok (X_reduced, reducer) ->
     has_shape (length (index X)) (n_components_of est) X_reduced = true ->
     dimensionality_reduction L X algorithm =
       Ok (Some {| index := index X; columns := ["x"; "y"; "z"];
                   values := of_array X_reduced |}, Some (est, reducer))).
Proof.
  intros Halg. split.
  - intros out Hout. destruct (selected_total _ Halg) as [est Hest].
    rewrite (dimensionality_reduction_known L X _ est Hest) in Hout.
    destruct (asarray L (values X)) as [X_values|]; [|discriminate].
    simpl in Hout.
    destruct (fit_transform L est X_values) as [[X_reduced reducer]|];
      [|discriminate].
    simpl in Hout.
    destruct (DataFrame_of _ _ _) as [df|] eqn:Hdf; [|discriminate].
    injection Hout as <-. apply DataFrame_of_Ok in Hdf as (-> & Hn & Hrows).
    eexists _, _. split; [reflexivity|]. simpl. auto.
  - intros est X_values X_reduced reducer Hest Hvals Hfit Hshape.
    rewrite (dimensionality_reduction_known L X _ est Hest), Hvals.
    simpl. rewrite Hfit. simpl.
    assert (n_components_of est = 3%nat) as Hn
      by (destruct Hest as [[_ ->]|[[_ ->]|[_ ->]]]; reflexivity).
    unfold DataFrame_of. rewrite of_array_shape. simpl length.
    rewrite Hn in Hshape. by rewrite Hshape.
Qed.

Lemma dimensionality_reduction_three_columns_witness :
  dimensionality_reduction Demo.libs Demo.encoded "t-SNE" =
    Ok (Some {| index := ["HG1"; "HG2"]; columns := ["x"; "y"; "z"];
                values := [ [Flt (Fin 1); Flt (Fin 0); Flt (Fin 1)];
                            [Flt (Fin 0); Flt (Fin 1); Flt (Fin 0)] ] |},
        Some (TSNE 3 4, TSNE 3 4)).
Proof.
  assert ("t-SNE" ∈ ["PCA"; "UMAP"; "t-SNE"]) as Halg
    by (do 2 apply list_elem_of_further; apply list_elem_of_here).
  apply (proj2 (dimensionality_reduction_three_columns
                  Demo.libs Demo.encoded "t-SNE" Halg)
               (TSNE 3 4)
               [ [Fin 1; Fin 0; Fin 1; Fin 0]; [Fin 0; Fin 1; Fin 0; Fin 1] ]
               [ [Fin 1; Fin 0; Fin 1]; [Fin 0; Fin 1; Fin 0] ]
               (TSNE 3 4)).
  - right; left; split; reflexivity.
  - reflexivity.
  - reflexivity.
  - reflexivity.
Defined.

(** ** Imputation *)

Lemma rint_Q_nearest (q : Q) : (Qabs (inject_Z (rint_Q q) - q) <= 1 # 2)%Q.
Proof.
  unfold rint_Q.
  pose proof (Qfloor_le q) as Hle. pose proof (Qlt_floor q) as Hlt.
  rewrite inject_Z_plus in Hlt. change (inject_Z 1) with 1%Q in Hlt.
  destruct (Qcompare_spec (q - inject_Z (Qfloor q)) (1 # 2)) as [He|Hc|Hc];
    [destruct (Z.even (Qfloor q))|..];
    rewrite ?inject_Z_plus; change (inject_Z 1) with 1%Q;
    apply Qabs_case; intros _; lra.
Qed.

Lemma rint_nearest (x : float64) : nearest_integer x (rint x).
Proof.
  destruct x as [q|]; simpl; [|done].
  exists (rint_Q q). split; [done|apply rint_Q_nearest].
Qed.

(** C10. Whatever the combined matrix, when the 9-neighbour imputer returns
    the rows [reference ++ [user_row]], [impute_missing] returns the last
    row only, value by value rounded to a nearest integer; the reference
    rows of the imputed matrix do not reach the result. *)
Theorem impute_missing_user_row (L : Libs) (aisnps_1kg reference : ndarray)
  (user_row : list float64) :
  KNNImputer_fit_transform L 9 aisnps_1kg = Ok (reference ++ [user_row]) ->
  impute_missing L aisnps_1kg = Ok (map rint user_row) /\
  Forall2 nearest_integer user_row (map rint user_row).
Proof.
  intros Himp. split.
  - unfold impute_missing. rewrite Himp. simpl. by rewrite last_snoc.
  - apply Forall2_fmap_r, Forall_Forall2_diag, Forall_forall.
    intros x _. apply rint_nearest.
Qed.

Lemma impute_missing_user_row_witness :
  impute_missing Demo.libs Demo.combined = Ok [Fin 0; Fin 1; Fin 2] /\
  Forall2 nearest_integer [Fin (1 # 2); Fin (7 # 10); Fin (5 # 2)]
          [Fin 0; Fin 1; Fin 2].
Proof.
  apply (impute_missing_user_row Demo.libs Demo.combined
           [ [Fin 1; Fin 0; Fin 0] ] [Fin (1 # 2); Fin (7 # 10); Fin (5 # 2)]).
  reflexivity.
Defined.

(** ** Filtering the upload to the panel *)

Lemma zip_with_zip_with_r {A B C} (f : A -> C -> C) (g : A -> B -> C)
  (l : list A) (k : list B) :
  zip_with f l (zip_with g l k) = zip_with (fun a b => f a (g a b)) l k.
Proof.
  revert k. induction l as [|a l IH]; intros [|b k]; simpl; [done..|].
  by rewrite IH.
Qed.

Lemma zip_with_pointwise {A B C} (f g : A -> B -> C) (l : list A) (k : list B) :
  (forall a b, a ∈ l -> f a b = g a b) -> zip_with f l k = zip_with g l k.
Proof.
  revert k. induction l as [|a l IH]; intros [|b k] Hfg; simpl; [done..|].
  rewrite Hfg by apply list_elem_of_here.
  rewrite IH; [done|]. intros a' b' Hin. by apply Hfg, list_elem_of_further.
Qed.

Lemma zip_with_keep {A B} (l : list A) (k : list B) :
  length k = length l -> zip_with (fun _ b => b) l k = k.
Proof.
  revert k. induction l as [|a l IH]; intros [|b k] Hlen; simpl in *;
    [done..|]. by rewrite IH by lia.
Qed.

Lemma zip_with_const_r {A B C} (f : A -> B -> C) (b : B) (l : list A) :
  zip_with f l (map (fun _ => b) l) = map (fun a => f a b) l.
Proof. induction l as [|a l IH]; simpl; [done|]. by rewrite IH. Qed.

Lemma filter_loop (userdf : gmap string SNP) (idx cols done_ : list string)
  (row : list cell) :
  (forall c, c ∈ done_ -> c ∈ cols) ->
  length row = length cols ->
  foldl (fun user_record snp =>
           match userdf !! snp with
           | Some r => setitem_scalar user_record snp (genotype r)
           | None => user_record
           end)
        {| index := idx; columns := cols; values := [row] |} done_ =
  {| index := idx; columns := cols;
     values := [zip_with (fun c old => if decide (c ∈ done_)
                                       then from_option genotype old (userdf !! c)
                                       else old) cols row] |}.
Proof.
  revert row. induction done_ as [|snp rest IH]; intros row Hsub Hlen; simpl.
  - f_equal. f_equal. rewrite <- (zip_with_keep cols row Hlen) at 1.
    apply zip_with_pointwise. intros c old _.
    done.
  - assert (snp ∈ cols) as Hsnp by apply Hsub, list_elem_of_here.
    assert (forall c, c ∈ rest -> c ∈ cols) as Hrest
      by (intros c Hc; by apply Hsub, list_elem_of_further).
    destruct (userdf !! snp) as [r|] eqn:Hlook.
    + unfold setitem_scalar, assign_cols, assign_row. simpl.
      rewrite !decide_True by done.
      rewrite IH; [|done|by rewrite length_zip_with; lia].
      f_equal. f_equal. rewrite zip_with_zip_with_r.
      apply zip_with_pointwise. intros c old _.
      destruct (decide (c = snp)) as [->|Hne].
      * rewrite Hlook. rewrite (decide_True (P := snp ∈ snp :: rest))
          by apply list_elem_of_here.
        simpl. by case_decide.
      * destruct (decide (c ∈ rest)) as [Hin|Hnin].
        -- by rewrite decide_True by by apply list_elem_of_further.
        -- rewrite decide_False; [done|]. rewrite elem_of_cons. tauto.
    + rewrite IH by done. f_equal. f_equal.
      apply zip_with_pointwise. intros c old _.
      destruct (decide (c = snp)) as [->|Hne].
      * rewrite Hlook. rewrite (decide_True (P := snp ∈ snp :: rest))
          by apply list_elem_of_here.
        simpl. by case_decide.
      * destruct (decide (c ∈ rest)) as [Hin|Hnin].
        -- by rewrite decide_True by by apply list_elem_of_further.
        -- rewrite decide_False; [done|]. rewrite elem_of_cons. tauto.
Qed.

(** C8. The user record [filter_user_genotypes] builds has one row, exactly
    the columns of the reference table in their order, and in each column
    the genotype the upload has under that label, or null when the upload
    has none; SNPs of the upload that are no column of the reference table
    appear nowhere. The second result is the reference table with that
    record appended. *)
Theorem filter_user_genotypes_panel (userdf : gmap string SNP)
  (aisnps_1kg : DataFrame) :
  let user_record :=
    {| index := ["your_sample"];
       columns := columns aisnps_1kg;
       values := [map (uploaded userdf) (columns aisnps_1kg)] |} in
  filter_user_genotypes userdf aisnps_1kg =
    (user_record, append aisnps_1kg user_record).
Proof.
  unfold filter_user_genotypes, DataFrame_empty. simpl.
  rewrite filter_loop; [|done|by rewrite length_map].
  rewrite zip_with_const_r.
  assert (map (fun c => if decide (c ∈ columns aisnps_1kg)
                        then from_option genotype null (userdf !! c)
                        else null) (columns aisnps_1kg)
          = map (uploaded userdf) (columns aisnps_1kg)) as ->; [|done].
  apply map_ext_in. intros c Hc%list_elem_of_In. by rewrite decide_True.
Qed.

Example filter_user_genotypes_demo :
  (filter_user_genotypes Demo.upload
     {| index := ["HG1"]; columns := ["rs1"; "rs2"];
        values := [ [Str "AA"; Str "CC"] ] |}).1
  = {| index := ["your_sample"]; columns := ["rs1"; "rs2"];
       values := [ [Str "AG"; null] ] |}.
Proof. reflexivity. Qed.

(** ** The genotype loader *)

Lemma insert_label_perm (k : string) (l : list string) :
  insert_label k l ≡ₚ k :: l.
Proof.
  induction l as [|k' l IH]; simpl; [done|].
  destruct (String.leb k k'); [done|]. rewrite IH. apply Permutation_swap.
Qed.

Lemma sort_labels_perm (l : list string) : sort_labels l ≡ₚ l.
Proof.
  induction l as [|k l IH]; simpl; [done|].
  by rewrite insert_label_perm, IH.
Qed.

Lemma unique_NoDup `{EqDecision A} (l : list A) : NoDup (unique l).
Proof.
  unfold unique.
  assert (forall acc : list A, NoDup acc ->
            NoDup (foldl (fun acc x => if decide (x ∈ acc) then acc else acc ++ [x])
                         acc l)) as Hgen.
  { induction l as [|x l IH]; intros acc Hacc; simpl; [done|].
    apply IH. case_decide; [done|].
    apply NoDup_app. split_and!; [done| |apply NoDup_singleton].
    intros y Hy Hy'. apply list_elem_of_singleton in Hy'. by subst. }
  apply Hgen, NoDup_nil_2.
Qed.

Lemma unique_elem_of `{EqDecision A} (l : list A) (x : A) :
  x ∈ unique l <-> x ∈ l.
Proof.
  unfold unique.
  assert (forall acc : list A,
            x ∈ foldl (fun acc x => if decide (x ∈ acc) then acc else acc ++ [x])
                      acc l <-> x ∈ acc \/ x ∈ l) as Hgen.
  { induction l as [|y l IH]; intros acc; simpl.
    - rewrite elem_of_nil. tauto.
    - rewrite IH, elem_of_cons. case_decide.
      + split; [tauto|]. intros [?|[->|?]]; tauto.
      + rewrite elem_of_app, list_elem_of_singleton. tauto. }
  rewrite Hgen, elem_of_nil. tauto.
Qed.

(** The loop of [vcf2df] over the variant records. *)
Lemma vcf2df_loop (vs : list Variant) (df0 : DataFrame) :
  length (values df0) = length (index df0) ->
  Forall (fun v => length (gt_bases v) = length (index df0)) vs ->
  exists df,
    foldl (fun acc variant =>
             df ← acc;
             setitem df (ID variant)
                     (map (fun gt => Str (remove_bar gt)) (gt_bases variant)))
          (Ok df0) vs = Ok df /\
    index df = index df0 /\
    columns df = foldl (fun acc x => if decide (x ∈ acc) then acc else acc ++ [x])
                       (columns df0) (map ID vs) /\
    length (values df) = length (index df0).
Proof.
  revert df0. induction vs as [|v vs IH]; intros df0 Hvals Hgts; simpl.
  - by exists df0.
  - apply Forall_cons in Hgts as [Hv Hvs].
    unfold setitem at 2. rewrite length_map, decide_True by done.
    match goal with |- context [foldl _ (Ok ?d) vs] => set (df1 := d) end.
    destruct (IH df1) as (df & Hfold & Hidx & Hcols & Hlen).
    + subst df1. simpl. rewrite length_zip_with, length_map. lia.
    + done.
    + exists df. by rewrite Hfold.
Qed.

Lemma rows_at_length (df : DataFrame) (k : string) :
  NoDup (index df) -> length (values df) = length (index df) ->
  length (rows_at df k) = if decide (k ∈ index df) then 1%nat else 0%nat.
Proof.
  unfold rows_at. generalize (values df) as rows.
  induction (index df) as [|i idx IH]; intros rows Hnd Hlen.
  - by destruct rows.
  - destruct rows as [|row rows]; [done|].
    apply NoDup_cons in Hnd as [Hi Hnd]. simpl in Hlen.
    simpl. destruct (decide (i = k)) as [->|Hne].
    + simpl. rewrite IH by (done || lia).
      rewrite decide_False by done.
      by rewrite decide_True by apply list_elem_of_here.
    + rewrite IH by (done || lia).
      destruct (decide (k ∈ idx)) as [Hin|Hnin].
      * by rewrite decide_True by by apply list_elem_of_further.
      * rewrite decide_False; [done|]. rewrite elem_of_cons.
        intros [Hk|Hk]; [by subst|done].
Qed.

Lemma join_key_single (l r : DataFrame) (k : string) :
  NoDup (index l) -> length (values l) = length (index l) ->
  NoDup (index r) -> length (values r) = length (index r) ->
  k ∈ index l ++ index r ->
  length (join_key l r k) = 1%nat.
Proof.
  intros Hl Hlv Hr Hrv Hk. unfold join_key.
  pose proof (rows_at_length l k Hl Hlv) as Hnl.
  pose proof (rows_at_length r k Hr Hrv) as Hnr.
  apply elem_of_app in Hk.
  destruct (rows_at l k) as [|lr [|? ?]], (rows_at r k) as [|rr [|? ?]];
    repeat case_decide; simpl in *; try done; tauto.
Qed.

Lemma join_blocks_index {A} (f : string -> list A) (keys : list string) :
  (forall k, k ∈ keys -> length (f k) = 1%nat) ->
  flat_map (fun b : string * list A => map (fun _ => b.1) b.2)
           (map (fun k => (k, f k)) keys) = keys /\
  length (flat_map snd (map (fun k => (k, f k)) keys)) = length keys.
Proof.
  induction keys as [|k keys IH]; intros Hone; simpl; [done|].
  destruct IH as [IH1 IH2].
  { intros k' Hk'. by apply Hone, list_elem_of_further. }
  pose proof (Hone k (list_elem_of_here _ _)) as Hk.
  destruct (f k) as [|a [|? ?]]; simpl in *; try done.
  by rewrite IH1, IH2.
Qed.

Lemma rows_at_absent (df : DataFrame) (s : string) :
  s ∉ index df -> rows_at df s = [].
Proof.
  unfold rows_at. generalize (values df) as rows.
  induction (index df) as [|k idx IH]; intros rows Hs; [done|].
  destruct rows as [|row rows]; [done|]. simpl.
  apply not_elem_of_cons in Hs as [Hne Hs].
  rewrite decide_False by done. by apply IH.
Qed.

Lemma flat_map_blocks {A} (f : string -> list A) (keys : list string) :
  flat_map snd (map (fun k => (k, f k)) keys) = flat_map f keys.
Proof. induction keys as [|k keys IH]; simpl; [done|]. by rewrite IH. Qed.

(** The rows of a frame with distinct labels, gathered label by label. *)
Lemma rows_at_flat {B} (g : list cell -> B) (df : DataFrame) :
  NoDup (index df) -> length (values df) = length (index df) ->
  flat_map (fun k => map g (rows_at df k)) (index df) = map g (values df).
Proof.
  destruct df as [idx cs rows]. cbn [index values]. revert rows.
  induction idx as [|i idx IH]; intros rows Hnd Hlen.
  - by destruct rows.
  - destruct rows as [|row rows]; [done|].
    apply NoDup_cons in Hnd as [Hi Hnd]. simpl in Hlen.
    cbn [flat_map]. unfold rows_at at 1. cbn [index values zip zip_with omap list_omap].
    rewrite decide_True by done.
    change (omap _ (zip idx rows))
      with (rows_at {| index := idx; columns := cs; values := rows |} i).
    rewrite rows_at_absent by done. cbn [map app]. f_equal.
    rewrite <- (IH rows) by (done || lia).
    rewrite !flat_map_concat_map. f_equal. apply map_ext_in.
    intros k Hk%list_elem_of_In. f_equal.
    unfold rows_at. cbn [index values zip zip_with omap list_omap].
    rewrite decide_False; [done|]. by intros ->.
Qed.

(** The outer join of two frames with distinct row labels, block by block:
    whatever the order of the labels, every label of either frame has its
    block of joined rows, and no other label has one. *)
Lemma join_outer_blocks (l r : DataFrame) :
  NoDup (index l) -> length (values l) = length (index l) ->
  NoDup (index r) -> length (values r) = length (index r) ->
  (forall c, c ∈ columns l -> c ∉ columns r) ->
  exists keys,
    NoDup keys /\ (forall k, k ∈ keys <-> k ∈ index l \/ k ∈ index r) /\
    join_outer l r =
      Ok {| index := keys;
            columns := columns l ++ columns r;
            values := flat_map snd (map (fun k => (k, join_key l r k)) keys) |}.
Proof.
  intros Hl Hlv Hr Hrv Hfresh. unfold join_outer.
  assert (existsb (fun c => bool_decide (c ∈ columns r)) (columns l) = false)
    as ->.
  { apply not_true_is_false. intros (c & Hc & Hin)%existsb_exists.
    apply bool_decide_eq_true in Hin. apply list_elem_of_In in Hc.
    by apply (Hfresh c). }
  destruct (decide (index r = [])) as [Hr0|Hr0];
    [|destruct (decide (index l = [])) as [Hl0|Hl0]].
  - exists (index l). split; [done|]. split.
    { intros k. rewrite Hr0, elem_of_nil. tauto. }
    do 2 f_equal. rewrite flat_map_blocks.
    rewrite <- (rows_at_flat (fun lr => lr ++ nulls (length (columns r))) l)
      by done.
    apply flat_map_ext. intros k. unfold join_key.
    rewrite (rows_at_absent r k) by (rewrite Hr0; apply not_elem_of_nil).
    by destruct (rows_at l k).
  - exists (index r). split; [done|]. split.
    { intros k. rewrite Hl0, elem_of_nil. tauto. }
    do 2 f_equal. rewrite flat_map_blocks.
    rewrite <- (rows_at_flat (fun rr => nulls (length (columns l)) ++ rr) r)
      by done.
    apply flat_map_ext. intros k. unfold join_key.
    by rewrite (rows_at_absent l k) by (rewrite Hl0; apply not_elem_of_nil).
  - set (keys := if decide (NoDup (index l) /\ index l = index r)
                 then index l
                 else sort_labels (remove_dups (index l ++ index r))).
    assert (NoDup keys /\ forall k, k ∈ keys <-> k ∈ index l \/ k ∈ index r)
      as [Hkeys Hin].
    { subst keys. case_decide as Heq.
      - destruct Heq as [_ Heq]. split; [done|]. intros k. rewrite <- Heq. tauto.
      - split.
        + rewrite sort_labels_perm. apply NoDup_remove_dups.
        + intros k. by rewrite sort_labels_perm, elem_of_remove_dups, elem_of_app. }
    destruct (join_blocks_index (join_key l r) keys) as [Hi _].
    { intros k Hk. apply join_key_single; try done.
      apply elem_of_app. by apply Hin. }
    exists keys. split; [done|]. split; [done|].
    cbv zeta. by rewrite Hi.
Qed.

(** C4, as the specification states it, fails: with two samples and two
    variants in the variant file and metadata that lists a third sample, the
    table has three rows and five columns. *)
Lemma vcf2df_shape_counterexample :
  exists vcf df,
    VCF Demo.libs "data/Kidd.55AISNP.1kG.vcf" = Ok vcf /\
    vcf2df Demo.libs "data/Kidd.55AISNP.1kG.vcf" Demo.dfsamples3 = Ok df /\
    length (samples vcf) = 2%nat /\ length (index df) = 3%nat /\
    length (variants vcf) = 2%nat /\ length (columns df) = 5%nat.
Proof. eexists _, _. repeat split; reflexivity. Qed.

(** C4, amended. For a variant file with distinct sample names and one call
    per sample in every record, and metadata with distinct sample names and
    no column named like a variant, [vcf2df] returns a table with one row
    per distinct sample of the variant file and the metadata together (as
    many rows as the variant file has samples when the metadata lists no
    other sample), labelled by these samples; its columns are the distinct
    variant IDs in file order followed by the metadata columns. *)
Theorem vcf2df_shape (L : Libs) (vcf_fname : string) (dfsamples : DataFrame)
  (vcf : VCFfile) :
  VCF L vcf_fname = Ok vcf ->
  NoDup (samples vcf) ->
  Forall (fun v => length (gt_bases v) = length (samples vcf)) (variants vcf) ->
  NoDup (index dfsamples) ->
  length (values dfsamples) = length (index dfsamples) ->
  (forall v, v ∈ variants vcf -> ID v ∉ columns dfsamples) ->
  exists df,
    vcf2df L vcf_fname dfsamples = Ok df /\
    NoDup (index df) /\
    (forall s, s ∈ index df <-> s ∈ samples vcf \/ s ∈ index dfsamples) /\
    length (values df) = length (index df) /\
    length (index df) = length (remove_dups (samples vcf ++ index dfsamples)) /\
    ((forall s, s ∈ index dfsamples -> s ∈ samples vcf) ->
     length (index df) = length (samples vcf)) /\
    columns df = unique (map ID (variants vcf)) ++ columns dfsamples /\
    length (columns df) =
      (length (unique (map ID (variants vcf))) + length (columns dfsamples))%nat.
Proof.
  intros Hvcf Hsamples Hgts Hmeta Hmetav Hfresh.
  unfold vcf2df. rewrite Hvcf. simpl.
  destruct (vcf2df_loop (variants vcf) (DataFrame_empty (samples vcf) []))
    as (df1 & -> & Hidx & Hcols & Hlen); simpl.
  { by rewrite length_map. }
  { done. }
  simpl in Hidx, Hcols, Hlen. fold (unique (map ID (variants vcf))) in Hcols.
  destruct (join_outer_blocks df1 dfsamples) as (keys & Hkeys & Hin & ->);
    rewrite ?Hidx; try done.
  { intros c Hc. rewrite Hcols in Hc.
    apply unique_elem_of, list_elem_of_fmap in Hc as (v & -> & Hv).
    by apply Hfresh. }
  rewrite Hidx in Hin.
  destruct (join_blocks_index (join_key df1 dfsamples) keys) as [_ Hv].
  { intros k Hk. apply join_key_single; rewrite ?Hidx; try done.
    apply elem_of_app. by apply Hin. }
  assert (keys ≡ₚ remove_dups (samples vcf ++ index dfsamples)) as Hperm.
  { apply NoDup_Permutation; [done|apply NoDup_remove_dups|].
    intros s. by rewrite Hin, elem_of_remove_dups, elem_of_app. }
  eexists. split; [reflexivity|]. cbn [index columns values].
  rewrite Hv, Hcols.
  split_and!; [done|done|done|by rewrite Hperm| |done|by rewrite length_app].
  intros Hsub. apply Permutation_length, NoDup_Permutation; [done..|].
  intros s. rewrite Hin. split; [intros [Hs|Hs]; auto|auto].
Qed.

Lemma vcf2df_shape_witness :
  exists df,
    vcf2df Demo.libs "data/Kidd.55AISNP.1kG.vcf" Demo.dfsamples3 = Ok df /\
    length (index df) = 3%nat /\
    columns df = ["rs1"; "rs2"; "population"; "super population"; "gender"].
Proof.
  destruct (vcf2df_shape Demo.libs "data/Kidd.55AISNP.1kG.vcf" Demo.dfsamples3
              Demo.vcf eq_refl) as (df & Hdf & _ & _ & _ & Hn & _ & Hcols & _).
  - by apply (bool_decide_unpack _).
  - by repeat constructor.
  - by apply (bool_decide_unpack _).
  - reflexivity.
  - intros v Hv. apply (bool_decide_unpack _).
    revert v Hv. apply Forall_forall. by repeat constructor.
  - exists df. split; [exact Hdf|]. split; [exact Hn|exact Hcols].
Defined.

(** ** The encoder *)

Lemma ohe_fit_dim (cs : list string) (missing : string) (X : DataFrame)
  (ohe : OneHotEncoder) :
  ohe_fit cs missing X = Ok ohe -> _dim ohe = length (columns X).
Proof.
  unfold ohe_fit. destruct (mapM _ cs); [|discriminate].
  by intros [= <-].
Qed.

Lemma ohe_transform_index (ohe : OneHotEncoder) (X Y : DataFrame) :
  ohe_transform ohe X = Ok Y -> index Y = index X.
Proof.
  unfold ohe_transform. case_decide; [|discriminate].
  destruct (mapM _ (mapping ohe)); [|discriminate].
  by intros [= <-].
Qed.

(** C5, as the specification states it, fails: the encoder fitted on a
    two-column genotype table refuses the four-column matrix it produced. *)
Lemma encode_genotypes_counterexample :
  exists X ohe,
    encode_genotypes Demo.genotypes = Ok (X, ohe) /\
    X = Demo.encoded /\
    ohe_transform ohe X
      = Raise (ValueError "Unexpected input dimension 4, expected 2").
Proof. eexists _, _. repeat split; vm_compute; reflexivity. Qed.

Lemma getitem_column (df : DataFrame) (c : string) :
  c ∈ columns df -> exists col, getitem df c = Ok col.
Proof.
  unfold getitem. intros Hc.
  assert (exists j, col_pos c (columns df) = Some j) as [j ->]; [|eauto].
  induction (columns df) as [|c' cs IH]; simpl.
  - by apply elem_of_nil in Hc.
  - case_decide; [eauto|]. apply elem_of_cons in Hc as [->|Hc]; [done|].
    destruct (IH Hc) as [j ->]. simpl. eauto.
Qed.

Lemma mapM_total {A B} (f : A -> result B) (l : list A) :
  Forall (fun a => exists b, f a = Ok b) l -> exists l', mapM f l = Ok l'.
Proof.
  induction 1 as [|a l [b Hb] _ [l' IH]]; simpl; [eauto|].
  rewrite Hb. simpl. rewrite IH. simpl. eauto.
Qed.

Lemma ohe_fit_total (cs : list string) (missing : string) (X : DataFrame) :
  (forall c, c ∈ cs -> c ∈ columns X) ->
  exists ohe, ohe_fit cs missing X = Ok ohe /\
              Forall (fun m => m.1 ∈ columns X) (mapping ohe).
Proof.
  intros Hcs. unfold ohe_fit.
  destruct (mapM_total (fun c => col ← getitem X c; Ok (c, categories col)) cs)
    as [m Hm].
  { apply Forall_forall. intros c Hc.
    destruct (getitem_column X c (Hcs c Hc)) as [col ->]. simpl. eauto. }
  rewrite Hm. simpl. eexists. split; [reflexivity|]. simpl.
  apply mapM_Ok in Hm. clear -Hm Hcs.
  induction Hm as [|c m' cs ms Hc _ IH]; constructor.
  - apply result_bind_Ok in Hc as (col & _ & [= <-]). simpl.
    apply Hcs, list_elem_of_here.
  - apply IH. intros c' Hc'. by apply Hcs, list_elem_of_further.
Qed.

Lemma ohe_transform_total (ohe : OneHotEncoder) (X : DataFrame) :
  _dim ohe = length (columns X) ->
  Forall (fun m => m.1 ∈ columns X) (mapping ohe) ->
  exists Y, ohe_transform ohe X = Ok Y.
Proof.
  intros Hdim Hmap. unfold ohe_transform. rewrite decide_True by done.
  edestruct (mapM_total
               (fun '(c, cats) =>
                  col ← getitem X c;
                  Ok (indicator_names c cats,
                      map (indicator (handle_missing ohe) cats) col))
               (mapping ohe)) as [blocks ->]; [|simpl; eauto].
  eapply Forall_impl; [exact Hmap|]. intros [c cats] Hc.
  destruct (getitem_column X c Hc) as [col ->]. simpl. eauto.
Qed.

Lemma ohe_fit_mapping (cs : list string) (missing : string) (X : DataFrame)
  (ohe : OneHotEncoder) :
  ohe_fit cs missing X = Ok ohe -> map fst (mapping ohe) = cs.
Proof.
  unfold ohe_fit. intros (m & Hm & [= <-])%result_bind_Ok. simpl.
  apply mapM_Ok in Hm. induction Hm as [|c b cs' bs Hb _ IH]; simpl; [done|].
  apply result_bind_Ok in Hb as (col & _ & [= <-]). simpl. by rewrite IH.
Qed.

Lemma ohe_blocks (ohe : OneHotEncoder) (X : DataFrame)
  (blocks : list (list string * list (list cell))) :
  mapM (fun '(c, cats) =>
          col ← getitem X c;
          Ok (indicator_names c cats,
              map (indicator (handle_missing ohe) cats) col))
       (mapping ohe) = Ok blocks ->
  flat_map fst blocks
    = flat_map (fun m => indicator_names m.1 m.2) (mapping ohe) /\
  Forall (fun b => length b.2 = length (values X) /\
                   Forall (fun r => length r = length b.1 /\ Forall is_float r) b.2)
         blocks.
Proof.
  intros Hm. apply mapM_Ok in Hm.
  induction Hm as [|[c cats] b ms bs Hb _ [IH1 IH2]]; [done|].
  apply result_bind_Ok in Hb as (col & Hcol & [= <-]).
  split; [simpl; by rewrite IH1|]. constructor; [|done]. cbn [fst snd].
  unfold getitem in Hcol. destruct (col_pos c (columns X)); [|done].
  injection Hcol as <-. rewrite !length_map. split; [done|].
  apply Forall_fmap, Forall_fmap, Forall_forall. intros row _. simpl.
  unfold indicator_names, indicator. rewrite length_imap.
  destruct (isnull _); rewrite length_map; (split; [done|]);
    apply Forall_fmap, Forall_forall; intros cat _; simpl.
  - case_decide; by eexists.
  - by eexists.
Qed.

(** The name of an indicator column is longer than the name of the column
    it encodes. *)
Lemma indicator_names_longer (c name : string) (cats : list cell) :
  name ∈ indicator_names c cats -> (String.length c < String.length name)%nat.
Proof.
  unfold indicator_names. intros (i & cat & -> & _)%elem_of_lookup_imap.
  rewrite !string_length_app. simpl. lia.
Qed.

(** The columns of the encoded table: the indicator columns of the encoded
    columns, and so none as short as the shortest column of the table. *)
Lemma encode_genotypes_columns (df X : DataFrame) (ohe : OneHotEncoder) :
  encode_genotypes df = Ok (X, ohe) ->
  _dim ohe = length (columns df) /\
  map fst (mapping ohe) = columns df /\
  forall name, name ∈ columns X ->
    exists c, c ∈ columns df /\ (String.length c < String.length name)%nat.
Proof.
  intros Henc. unfold encode_genotypes, ohe_fit_transform in Henc.
  apply result_bind_Ok in Henc as ([X0 ohe0] & Henc & [= <- <-]).
  apply result_bind_Ok in Henc as (ohe1 & Hfit & Henc).
  apply result_bind_Ok in Henc as (X1 & Htr & [= <- <-]).
  pose proof (ohe_fit_mapping _ _ _ _ Hfit) as Hmap.
  split; [by apply (ohe_fit_dim _ _ _ _ Hfit)|]. split; [done|].
  assert (columns (reindex X1 (index df)) = columns X1) as ->.
  { unfold reindex. by case_decide. }
  unfold ohe_transform in Htr. case_decide; [|done].
  apply result_bind_Ok in Htr as (blocks & Hblocks & [= <-]).
  apply ohe_blocks in Hblocks as [-> _]. cbn [columns].
  intros name ([c cats] & Hm & Hname)%list_elem_of_In%in_flat_map.
  apply list_elem_of_In, indicator_names_longer in Hname.
  exists c. split; [|done]. rewrite <- Hmap.
  apply list_elem_of_fmap. exists (c, cats). split; [done|].
  by apply list_elem_of_In.
Qed.

(** C5, amended. Encoding is not idempotent: for every genotype table with
    at least one column, the encoder [encode_genotypes] fitted refuses the
    matrix it returned. The matrix has columns of its own (the indicator
    columns), so either their number is not the number of columns the
    encoder was fitted on and the transform raises [ValueError], or it is
    and the transform raises [KeyError] for a genotype column that the
    matrix does not have. *)
Theorem encode_genotypes_not_idempotent (df X : DataFrame)
  (ohe : OneHotEncoder) :
  columns df <> [] ->
  encode_genotypes df = Ok (X, ohe) ->
  (length (columns X) <> length (columns df) /\
   exists msg, ohe_transform ohe X = Raise (ValueError msg)) \/
  (length (columns X) = length (columns df) /\
   exists c, c ∈ columns df /\ (c ∉ columns X) /\
             ohe_transform ohe X = Raise (KeyError c)).
Proof.
  intros Hne Henc.
  destruct (encode_genotypes_columns df X ohe Henc) as (Hdim & Hmap & Hlonger).
  destruct (decide (length (columns X) = length (columns df))) as [Heq|Hneq].
  - right. split; [done|].
    destruct (shortest_label (columns df) Hne) as (c & Hc & Hmin).
    assert (c ∉ columns X) as Hout.
    { intros (c' & Hc' & Hlt)%Hlonger. specialize (Hmin c' Hc'). lia. }
    unfold ohe_transform. rewrite decide_True by by rewrite Hdim.
    match goal with
    | |- context [mapM ?f (mapping ohe)] =>
        destruct (mapM_Raise f (mapping ohe)) as ([c2 cats2] & e & Hin2 & Hf2 & ->)
    end.
    { rewrite <- Hmap in Hc. apply list_elem_of_fmap in Hc as ([c1 cats] & Hc1 & Hm).
      simpl in Hc1. subst c.
      exists (c1, cats). split; [done|]. exists (KeyError c1).
      unfold getitem. by rewrite (proj2 (col_pos_None _ _) Hout). }
    unfold getitem in Hf2.
    destruct (col_pos c2 (columns X)) eqn:Hpos; [done|]. injection Hf2 as <-.
    exists c2. split_and!; [|by apply col_pos_None|done].
    rewrite <- Hmap. apply list_elem_of_fmap. by exists (c2, cats2).
  - left. split; [done|]. unfold ohe_transform.
    rewrite decide_False by by rewrite Hdim. eauto.
Qed.

Lemma encode_genotypes_not_idempotent_witness :
  exists msg,
    ohe_transform
      {| cols := ["rs1"; "rs2"]; handle_missing := "return_nan"; _dim := 2;
         mapping := [("rs1", [Str "AA"; Str "AG"]); ("rs2", [Str "CC"; Str "CT"])] |}
      Demo.encoded = Raise (ValueError msg).
Proof.
  destruct (encode_genotypes_not_idempotent Demo.genotypes Demo.encoded
              {| cols := ["rs1"; "rs2"]; handle_missing := "return_nan"; _dim := 2;
                 mapping := [("rs1", [Str "AA"; Str "AG"]);
                             ("rs2", [Str "CC"; Str "CT"])] |})
    as [[_ Hraise]|[Heq _]].
  - discriminate.
  - vm_compute; reflexivity.
  - exact Hraise.
  - discriminate Heq.
Defined.

Example encode_genotypes_demo :
  ohe_transform
    {| cols := ["rs1"; "rs2"]; handle_missing := "return_nan"; _dim := 2;
       mapping := [("rs1", [Str "AA"; Str "AG"]); ("rs2", [Str "CC"; Str "CT"])] |}
    Demo.genotypes = Ok Demo.encoded.
Proof. reflexivity. Qed.

(** ** Running the script body *)

Lemma bind_call {A B} (r : result A) (k : A -> App B) (tr : list effect) :
  (call r ≫= k) tr =
  match r with
  | Ok a => k a tr
  | Raise e => (tr, Raise e)
  end.
Proof. by destruct r. Qed.

Lemma bind_call_Ok {A B} (a : A) (k : A -> App B) (tr : list effect) :
  (call (Ok a) ≫= k) tr = k a tr.
Proof. reflexivity. Qed.

Lemma bind_call_Raise {A B} (e : exn) (k : A -> App B) (tr : list effect) :
  (call (Raise e) ≫= k) tr = (tr, Raise e).
Proof. reflexivity. Qed.

Lemma bind_emit {B} (e : effect) (k : unit -> App B) (tr : list effect) :
  (emit e ≫= k) tr = k tt (tr ++ [e]).
Proof. reflexivity. Qed.

Lemma bind_ret {A B} (a : A) (k : A -> App B) (tr : list effect) :
  (mret a ≫= k) tr = k a tr.
Proof. reflexivity. Qed.

Lemma bind_bind {A B C} (m : App A) (f : A -> App B) (k : B -> App C)
  (tr : list effect) :
  ((m ≫= f) ≫= k) tr = (m ≫= (fun a => f a ≫= k)) tr.
Proof.
  unfold mbind, App_bind. by destruct (m tr) as [tr' [a|e]].
Qed.

(** The upload handler of [main]: the [try] block and its [except]. *)
Lemma bind_upload {B} (L : Libs) (upload : string) (message : exn -> string)
  (k : option (gmap string SNP) * option string -> App B) (tr : list effect) :
  (try_except
     (call (open_w L "user_snps_file.txt");;
      emit (file_write "user_snps_file.txt" "");;
      call (copyfileobj L upload);;
      emit (file_write "user_snps_file.txt" upload);;
      userdf ← call (SNPs L upload);
      mret (Some userdf, Some upload))
     (fun e => emit (st_error (message e));; mret (None, None))
   ≫= k) tr =
  match open_w L "user_snps_file.txt" with
  | Ok _ =>
      match copyfileobj L upload with
      | Ok _ =>
          match SNPs L upload with
          | Ok userdf =>
              k (Some userdf, Some upload)
                ((tr ++ [file_write "user_snps_file.txt" ""])
                 ++ [file_write "user_snps_file.txt" upload])
          | Raise e =>
              k (None, None)
                (((tr ++ [file_write "user_snps_file.txt" ""])
                  ++ [file_write "user_snps_file.txt" upload])
                 ++ [st_error (message e)])
          end
      | Raise e =>
          k (None, None)
            ((tr ++ [file_write "user_snps_file.txt" ""])
             ++ [st_error (message e)])
      end
  | Raise e => k (None, None) (tr ++ [st_error (message e)])
  end.
Proof.
  unfold mbind, App_bind, try_except, emit, call.
  destruct (open_w L "user_snps_file.txt") as [[]|]; [|done].
  destruct (copyfileobj L upload) as [[]|]; [|done].
  by destruct (SNPs L upload).
Qed.

Lemma main_panel (L : Libs) (ui : Sidebar) (dfsamples : DataFrame) :
  (if decide (aisnp_label (aisnp_radio ui) = "Kidd et al. 55 AISNPs")
   then df ← call (vcf2df L "data/Kidd.55AISNP.1kG.vcf" dfsamples); mret (Some df)
   else if decide (aisnp_label (aisnp_radio ui) = "Seldin et al. 128 AISNPs")
   then df ← call (vcf2df L "data/Seldin.128AISNP.1kG.vcf" dfsamples); mret (Some df)
   else mret None) =
  (df ← call (vcf2df L (panel_file (aisnp_radio ui)) dfsamples); mret (Some df)).
Proof. by destruct (aisnp_radio ui). Qed.

(** The outcome of the call at the head of a run: the known one, or both. *)
Ltac split_call :=
  lazymatch goal with
  | |- match ?r with Ok _ => _ | Raise _ => _ end = _ -> _ =>
      first
        [ match goal with H : r = _ |- _ => rewrite H end
        | let E := fresh "E" in destruct r as [?|?] eqn:E ]
  end.

(** One step of a run: a call is split into its outcomes, an effect is
    appended, a returned value is passed on, a tuple is taken apart. *)
Ltac run_step :=
  first
    [ rewrite bind_bind
    | rewrite bind_ret
    | rewrite bind_emit
    | rewrite main_panel
    | rewrite bind_call_Ok
    | rewrite bind_call_Raise
    | rewrite bind_upload; split_call
    | rewrite bind_call; split_call
    | split_call
    | progress cbn [read_local not_None app]
    | progress cbv beta iota
    | lazymatch goal with
      | |- (not_None _ ?v ≫= _) _ = _ -> _ => destruct v
      | |- (let '(_, _) := ?p in _) _ = _ -> _ =>
          first [ is_var p; destruct p
                | let E := fresh "E" in destruct p as [? ?] eqn:E ]
      | |- ((let '(_, _) := ?p in _) ≫= _) _ = _ -> _ =>
          first [ is_var p; destruct p
                | let E := fresh "E" in destruct p as [? ?] eqn:E ]
      | |- ((if ?b then _ else _) ≫= _) _ = _ -> _ =>
          let E := fresh "E" in destruct b eqn:E
      | |- emit _ _ = _ -> _ => unfold emit
      end ].

(** A widget that is not in an explicit list of rendered effects. *)
Ltac not_rendered H :=
  repeat (apply elem_of_cons in H as [H|H]; [discriminate H|]);
  by apply elem_of_nil in H.

(** ** The upload that does not parse *)

(** C1 (the script does otherwise). When the [try] block raises on the
    upload (the parser refuses it, as in the claim, or the copy to disk
    fails before), no run of [main] renders a chart and none ends normally;
    and when the reference pipeline itself succeeds, the page holds the
    introduction and the error message and the run stops with
    [UnboundLocalError] for [userdf], read by the line that follows the
    handler. *)
Theorem main_upload_parse_error (L : Libs) (ui : Sidebar) (upload : string)
  (written : list effect) (e : exn) :
  file_uploader ui = Some upload ->
  try_raises L upload written e ->
  (forall tr r, main L ui [] = (tr, r) ->
     (forall fig, st_plotly_chart fig ∉ tr) /\ r <> Ok tt) /\
  (forall readme_text dfsamples aisnps_1kg encoded reduced,
     get_file_content_as_string L "intro.md" = Ok readme_text ->
     get_1kg_samples L = Ok dfsamples ->
     vcf2df L (panel_file (aisnp_radio ui)) dfsamples = Ok aisnps_1kg ->
     encode_genotypes aisnps_1kg = Ok encoded ->
     dimensionality_reduction L encoded.1 (reduction_label (reduction_radio ui))
       = Ok reduced ->
     main L ui [] =
       ([st_markdown readme_text] ++ written ++
        [st_error ("Sorry, there was a problem processing your genotypes file."
                   +:+ nl +:+ " " +:+ exn_str e)],
        Raise (UnboundLocalError "userdf"))).
Proof.
  intros Hup [[Hopen ->]|[(Hopen & Hcopy & ->)|(Hopen & Hcopy & Hparse & ->)]].
  all: split.
  all: try (intros tr r; unfold main; rewrite Hup; repeat run_step;
            intros [= <- <-]; (split; [intros fig Hin; not_rendered Hin|done])).
  all: intros readme_text dfsamples aisnps_1kg [X_encoded encoder]
         [X_reduced reducer] Hreadme Hsamples Hvcf Henc Hred; simpl in Hred.
  all: match goal with
       | |- _ = ?page =>
           enough (forall out, main L ui [] = out -> out = page) by auto
       end.
  all: intros out; unfold main; rewrite Hup; repeat run_step; by intros <-.
Qed.

Lemma main_upload_parse_error_witness :
  main Demo.libs (Demo.ui (Some "bad")) [] =
    ([st_markdown ("# ezancestry" +:+ nl);
      file_write "user_snps_file.txt" "";
      file_write "user_snps_file.txt" "bad";
      st_error ("Sorry, there was a problem processing your genotypes file."
                +:+ nl +:+ " no SNPs loaded")],
     Raise (UnboundLocalError "userdf")).
Proof.
  eapply (proj2 (main_upload_parse_error Demo.libs (Demo.ui (Some "bad")) "bad"
                   [file_write "user_snps_file.txt" "";
                    file_write "user_snps_file.txt" "bad"]
                   (LibraryError "no SNPs loaded") eq_refl
                   (or_intror (or_intror
                      (conj eq_refl (conj eq_refl (conj eq_refl eq_refl)))))));
    vm_compute; reflexivity.
Defined.

(** X1. Without an upload, the [else] branch renders the reference samples
    alone: the page is the introduction, the chart of the reduced reference
    table, the reference genotypes when asked for, and the details. *)
Lemma main_no_upload (L : Libs) (ui : Sidebar)
  (intro details : string) (dfsamples aisnps_1kg X_encoded X_reference : DataFrame)
  (encoder : OneHotEncoder) (reducer : option (estimator * Reducer L))
  (fig : Figure) :
  file_uploader ui = None ->
  get_file_content_as_string L "intro.md" = Ok intro ->
  get_1kg_samples L = Ok dfsamples ->
  vcf2df L (panel_file (aisnp_radio ui)) dfsamples = Ok aisnps_1kg ->
  encode_genotypes aisnps_1kg = Ok (X_encoded, encoder) ->
  dimensionality_reduction L X_encoded (reduction_label (reduction_radio ui))
    = Ok (Some X_reference, reducer) ->
  plot_3d (values X_reference) dfsamples (level_label (level_radio ui)) = Ok fig ->
  get_file_content_as_string L "details.md" = Ok details ->
  main L ui [] =
    ([st_markdown intro; st_plotly_chart fig]
     ++ (if show_1kg ui
         then [st_subheader "Genotypes of Ancestry-Informative SNPs in 1000 Genomes Project Samples";
               st_dataframe aisnps_1kg]
         else [])
     ++ [st_markdown details], Ok tt).
Proof.
  intros Hup Hintro Hsamples Hvcf Henc Hred Hplot Hdetails.
  match goal with
  | |- _ = ?page => enough (forall out, main L ui [] = out -> out = page) by auto
  end.
  intros out. unfold main. rewrite Hup. repeat run_step; by intros <-.
Qed.

(** ** The plotted embedding *)

(** A table of floats converts to the array of its cells. *)
Lemma asarray_Ok (L : Libs) (data : list (list cell)) (a : ndarray) :
  Forall (Forall is_float) data ->
  asarray L data = Ok a -> of_array a = data.
Proof.
  intros Hdata Ha. apply mapM_Ok in Ha. unfold of_array.
  induction Ha as [|row arow data a Hrow _ IH]; simpl; [done|].
  apply Forall_cons in Hdata as [Hfl Hdata].
  rewrite IH by done. f_equal. apply mapM_Ok in Hrow. clear -Hrow Hfl.
  induction Hrow as [|c x row arow Hc _ IH]; simpl; [done|].
  apply Forall_cons in Hfl as [[y ->] Hfl].
  rewrite IH by done. by simplify_eq/=.
Qed.

Lemma of_array_float (a : ndarray) : Forall (Forall is_float) (of_array a).
Proof.
  unfold of_array. apply Forall_fmap, Forall_forall. intros row _.
  apply Forall_fmap, Forall_forall. intros x _. by exists x.
Qed.

Lemma concatenate_Ok (a b c : ndarray) : concatenate a b = Ok c -> c = a ++ b.
Proof.
  unfold concatenate.
  destruct (width a), (width b); try case_decide; congruence.
Qed.

Lemma dimensionality_reduction_Some (L : Libs) (X : DataFrame)
  (algorithm : string) (df : DataFrame)
  (reducer : option (estimator * Reducer L)) :
  dimensionality_reduction L X algorithm = Ok (Some df, reducer) ->
  columns df = ["x"; "y"; "z"] /\ index df = index X /\
  length (values df) = length (index X) /\
  Forall (fun row => length row = 3%nat) (values df) /\
  Forall (Forall is_float) (values df).
Proof.
  unfold dimensionality_reduction.
  destruct (if decide (algorithm = "PCA") then _ else _) as [est|];
    [|discriminate].
  intros Hout.
  apply result_bind_Ok in Hout as (X_values & _ & Hout).
  apply result_bind_Ok in Hout as ([X_reduced fitted] & _ & Hout).
  apply result_bind_Ok in Hout as (df' & Hdf & Hout).
  simplify_eq. apply DataFrame_of_Ok in Hdf as (-> & Hn & Hrows).
  simpl. split_and!; try done. apply of_array_float.
Qed.

Lemma plot_3d_size_column (idx : list string) (rows : list (list cell))
  (v w : cell) (cols : list string) :
  cols = ["component_1"; "component_2"; "component_3";
          "population"; "super population"; "gender"] ->
  Forall (fun row => length row = length cols) rows ->
  map (take 3) (map (assign_row cols "size" v) rows) = map (take 3) rows /\
  map (take 3)
      (zip_with (fun i row =>
                   if decide (i = "me")
                   then zip_with (fun name old => if decide (name = "size") then w else old)
                                 (assign_cols cols "size") row
                   else row)
                idx (map (assign_row cols "size" v) rows))
  = take (length idx) (map (take 3) rows).
Proof.
  intros -> Hrows. split.
  - induction Hrows as [|row rows Hrow _ IH]; simpl; [done|].
    rewrite IH. f_equal.
    do 7 (destruct row as [|? row]; try done).
  - revert idx. induction Hrows as [|row rows Hrow _ IH]; intros [|i idx];
      simpl; [done..|].
    rewrite IH. f_equal.
    do 7 (destruct row as [|? row]; try done).
    by case_decide.
Qed.

Lemma plot_3d_embedding (X : list (list cell)) (dfsamples : DataFrame)
  (pop : string) (fig : Figure) :
  plot_3d X dfsamples pop = Ok fig ->
  length X = length (values dfsamples) /\
  embedding fig = map (take 3) (zip_with app X (values dfsamples)).
Proof.
  intros Hfig. unfold plot_3d in Hfig.
  apply result_bind_Ok in Hfig as (X' & HX & Hfig).
  apply result_bind_Ok in Hfig as (df & Hdf & Hfig).
  apply result_bind_Ok in Hfig as (fig0 & Hsc & Hfig).
  unfold hstack in HX.
  destruct (decide (length X = length (values dfsamples))) as [Hlen|];
    [|done].
  injection HX as <-.
  apply DataFrame_of_Ok in Hdf as (-> & Hn & Hrows).
  unfold scatter_3d in Hsc.
  destruct (decide (pop ∈ _)); [|done]. injection Hsc as <-.
  assert (fig_data fig =
          if decide ("me" ∈ index dfsamples)
          then loc_set_cell
                 (setitem_scalar
                    {| index := index dfsamples;
                       columns := ["component_1"; "component_2"; "component_3";
                                   "population"; "super population"; "gender"];
                       values := zip_with app X (values dfsamples) |}
                    "size" (Flt (Fin 16))) "size" "me" (Flt (Fin 75))
          else setitem_scalar
                 {| index := index dfsamples;
                    columns := ["component_1"; "component_2"; "component_3";
                                "population"; "super population"; "gender"];
                    values := zip_with app X (values dfsamples) |}
                 "size" (Flt (Fin 16))) as Hdata.
  { injection Hfig as <-. by destruct (decide ("me" ∉ index dfsamples)). }
  split; [done|]. unfold embedding. rewrite Hdata.
  edestruct (plot_3d_size_column (index dfsamples)) as [Hsize Hme];
    [reflexivity|exact Hrows|].
  destruct (decide ("me" ∈ index dfsamples)).
  - unfold loc_set_cell, setitem_scalar. cbn [values index columns].
    rewrite Hme, <- Hn, <- (length_map (take 3)). apply firstn_all.
  - apply Hsize.
Qed.

Lemma take_embedding_prefix (reference rest meta : list (list cell)) :
  Forall (fun row => length row = 3%nat) reference ->
  length (reference ++ rest) = length meta ->
  take (length reference) (map (take 3) (zip_with app (reference ++ rest) meta))
  = reference.
Proof.
  revert meta. induction reference as [|row reference IH];
    intros meta Hrows Hlen; simpl; [done|].
  destruct meta as [|m meta]; [done|]. simpl in *.
  apply Forall_cons in Hrows as [Hrow Hrows].
  rewrite IH by (done || lia). f_equal. by apply take_app_length'.
Qed.

Lemma reference_rows_plotted (L : Libs) (X X_reference : DataFrame)
  (algorithm : string) (reducer : option (estimator * Reducer L))
  (user_reduced X_reduced : ndarray) (dfsamples : DataFrame) (pop : string)
  (fig : Figure) :
  dimensionality_reduction L X algorithm = Ok (Some X_reference, reducer) ->
  (X ← asarray L (values X_reference); concatenate X user_reduced)
    = Ok X_reduced ->
  plot_3d (of_array X_reduced) dfsamples pop = Ok fig ->
  plot_3d (values X_reference ++ of_array user_reduced) dfsamples pop = Ok fig /\
  take (length (values X_reference)) (embedding fig) = values X_reference.
Proof.
  intros Hred Hcat Hplot.
  apply dimensionality_reduction_Some in Hred as (_ & _ & _ & Hrows & Hfl).
  apply result_bind_Ok in Hcat as (reference & Href & Hcat).
  apply asarray_Ok in Href; [|done]. apply concatenate_Ok in Hcat as ->.
  unfold of_array in Hplot. rewrite map_app in Hplot.
  fold (of_array reference) in Hplot. fold (of_array user_reduced) in Hplot.
  rewrite Href in Hplot. split; [done|].
  apply plot_3d_embedding in Hplot as [Hlen ->].
  by apply take_embedding_prefix.
Qed.

(** The chart among an explicit list of rendered effects. *)
Ltac find_chart H :=
  repeat match type of H with
         | _ ∈ _ :: _ =>
             apply elem_of_cons in H as [H|H];
             [first [discriminate H | injection H as H; subst]|]
         | _ ∈ [] => by apply elem_of_nil in H
         end.

(** A run whose tuple-valued step has a known value. *)
Ltac run_step_known :=
  first
    [ lazymatch goal with
      | |- ((let '(_, _) := ?p in _) ≫= _) _ = _ -> _ =>
          match goal with H : p = (_, _) |- _ => rewrite H end
      end
    | run_step ].

(** ** The upload with t-SNE selected *)

(** The object [dimensionality_reduction] returns for t-SNE has no
    [transform]. *)
Lemma reducer_transform_tsne (L : Libs) (X : DataFrame)
  (out : option DataFrame) (reducer : estimator * Reducer L) (M : ndarray) :
  dimensionality_reduction L X "t-SNE" = Ok (out, Some reducer) ->
  reducer_transform L reducer M =
    Raise (AttributeError "'MulticoreTSNE' object has no attribute 'transform'").
Proof.
  intros Hred.
  rewrite (dimensionality_reduction_known L X "t-SNE" (TSNE 3 4)) in Hred
    by (right; left; done).
  apply result_bind_Ok in Hred as (X_values & _ & Hred).
  apply result_bind_Ok in Hred as ([X_reduced fitted] & _ & Hred).
  apply result_bind_Ok in Hred as (df & _ & [= _ <-]). done.
Qed.

(** A step of a run with t-SNE: the call of [transform] raises. *)
Ltac run_step_tsne :=
  first
    [ lazymatch goal with
      | |- (call (reducer_transform _ ?p _) ≫= _) _ = _ -> _ =>
          match goal with
          | Hred : dimensionality_reduction _ _ "t-SNE" = Ok (_, Some p) |- _ =>
              rewrite (reducer_transform_tsne _ _ _ _ _ Hred)
          end
      end
    | run_step_known ].

(** C2 (the script does otherwise for t-SNE). With t-SNE selected, no run
    of [main] with an upload renders a chart or ends normally: the user's
    point is never produced. When every step up to the imputation of the
    user's record succeeds, the run stops at [reducer.transform] with
    [AttributeError], since the fitted [MulticoreTSNE] object has no such
    method, and the page holds the introduction alone. *)
Theorem main_upload_tsne (L : Libs) (ui : Sidebar) (upload : string) :
  reduction_radio ui = radio_TSNE ->
  file_uploader ui = Some upload ->
  (forall tr r, main L ui [] = (tr, r) ->
     (forall fig, st_plotly_chart fig ∉ tr) /\ r <> Ok tt) /\
  (forall readme_text dfsamples aisnps_1kg X_encoded encoder X_reference reducer
          userdf user_record appended user_encoded reference user X_combined
          user_imputed,
     get_file_content_as_string L "intro.md" = Ok readme_text ->
     get_1kg_samples L = Ok dfsamples ->
     vcf2df L (panel_file (aisnp_radio ui)) dfsamples = Ok aisnps_1kg ->
     encode_genotypes aisnps_1kg = Ok (X_encoded, encoder) ->
     dimensionality_reduction L X_encoded "t-SNE"
       = Ok (Some X_reference, Some reducer) ->
     open_w L "user_snps_file.txt" = Ok tt ->
     copyfileobj L upload = Ok tt ->
     SNPs L upload = Ok userdf ->
     filter_user_genotypes userdf aisnps_1kg = (user_record, appended) ->
     ohe_transform encoder user_record = Ok user_encoded ->
     asarray L (values X_encoded) = Ok reference ->
     asarray L (values user_encoded) = Ok user ->
     concatenate reference user = Ok X_combined ->
     impute_missing L X_combined = Ok user_imputed ->
     main L ui [] =
       ([st_markdown readme_text;
         file_write "user_snps_file.txt" "";
         file_write "user_snps_file.txt" upload],
        Raise (AttributeError
                 "'MulticoreTSNE' object has no attribute 'transform'"))).
Proof.
  intros Hradio Hup. split.
  - intros tr r. unfold main. rewrite Hup, Hradio. cbn [reduction_label].
    repeat run_step_tsne.
    all: intros [= <- <-]; split; [intros fig Hin; not_rendered Hin|done].
  - intros readme_text dfsamples aisnps_1kg X_encoded encoder X_reference
      reducer userdf user_record appended user_encoded reference user
      X_combined user_imputed Hintro Hsamples Hvcf Henc Hred Hopen Hcopy
      Hparse Hfilter Huser Href Husr Hcat Himp.
    assert ((a ← asarray L (values X_encoded);
             b ← asarray L (values user_encoded); concatenate a b)
            = Ok X_combined)
      as Hcombined by (rewrite Href; simpl; by rewrite Husr).
    match goal with
    | |- _ = ?page =>
        enough (forall out, main L ui [] = out -> out = page) by auto
    end.
    intros out. unfold main. rewrite Hup, Hradio. cbn [reduction_label].
    repeat run_step_tsne. by intros <-.
Qed.

Lemma main_upload_tsne_witness :
  main Demo.libs (Demo.ui_tsne (Some "ok")) [] =
    ([st_markdown ("# ezancestry" +:+ nl);
      file_write "user_snps_file.txt" "";
      file_write "user_snps_file.txt" "ok"],
     Raise (AttributeError "'MulticoreTSNE' object has no attribute 'transform'")).
Proof.
  eapply (proj2 (main_upload_tsne Demo.libs (Demo.ui_tsne (Some "ok")) "ok"
                   eq_refl eq_refl));
    vm_compute; reflexivity.
Defined.

(** ** The classifier *)

Lemma knn_stage (L : Libs) (dfsamples X_reference user_probs_df : DataFrame)
  (level : string) (params : KNeighborsClassifier) (knn : Classifier L)
  (user_reduced probabilities : ndarray) (user_pop : cell) :
  (y ← getitem dfsamples level;
   X ← asarray L (values X_reference);
   knn_fit L params X y) = Ok knn ->
  (labels ← predict L knn user_reduced; getitem0 labels) = Ok user_pop ->
  (probs ← getitem0 probabilities;
   DataFrame_of [map Flt probs] (map label_of (classes_ L knn)) ["me"])
    = Ok user_probs_df ->
  exists y reference labels probs,
    getitem dfsamples level = Ok y /\
    asarray L (values X_reference) = Ok reference /\
    knn_fit L params reference y = Ok knn /\
    predict L knn user_reduced = Ok labels /\
    getitem0 labels = Ok user_pop /\
    getitem0 probabilities = Ok probs /\
    length probs = length (classes_ L knn) /\
    user_probs_df = {| index := ["me"];
                       columns := map label_of (classes_ L knn);
                       values := [map Flt probs] |}.
Proof.
  intros Hfit Hpred Hdf.
  apply result_bind_Ok in Hfit as (y & Hy & Hfit).
  apply result_bind_Ok in Hfit as (reference & Href & Hfit).
  apply result_bind_Ok in Hpred as (labels & Hlabels & Hpop).
  apply result_bind_Ok in Hdf as (probs & Hprobs & Hdf).
  apply DataFrame_of_Ok in Hdf as (-> & _ & Hrow).
  apply Forall_cons in Hrow as [Hrow _]. rewrite !length_map in Hrow.
  by exists y, reference, labels, probs.
Qed.

(** An effect at a known place of an explicit list. *)
Ltac rendered :=
  repeat first [apply list_elem_of_here | apply list_elem_of_further].

(** C9. In every run with an upload that ends normally, the classifier
    (9 neighbours, distance weights) is fitted once, on the table
    [dimensionality_reduction] returned for the reference samples (the
    user's point is not in it) with the column of the sample metadata
    selected as population level as labels; [predict] and [predict_proba]
    are asked about one point only, the user's: what the fitted reducer
    returns for the imputed last row of the reference matrix stacked with
    the encoded record that [filter_user_genotypes] builds from the parsed
    upload; and the page shows the first predicted label and a one-row
    table of the first probability vector with one column per class of the
    fitted classifier. Conversely, whenever these steps and the chart
    succeed, the run ends normally and shows them. (With t-SNE selected the
    reducer has no [transform], and no run with an upload gets as far as
    the classifier.) *)
Theorem knn_fit_on_reference (L : Libs) (ui : Sidebar) (upload : string) :
  file_uploader ui = Some upload ->
  (forall tr, main L ui [] = (tr, Ok tt) ->
     exists dfsamples aisnps_1kg X_encoded encoder X_reference reducer
            userdf user_record appended user_encoded encoded_reference
            encoded_user X_combined user_imputed user_reduced
            y reference knn labels user_pop probabilities probs,
       get_1kg_samples L = Ok dfsamples /\
       vcf2df L (panel_file (aisnp_radio ui)) dfsamples = Ok aisnps_1kg /\
       encode_genotypes aisnps_1kg = Ok (X_encoded, encoder) /\
       dimensionality_reduction L X_encoded
         (reduction_label (reduction_radio ui))
         = Ok (Some X_reference, Some reducer) /\
       (SNPs L upload = Ok userdf /\
        filter_user_genotypes userdf aisnps_1kg = (user_record, appended) /\
        ohe_transform encoder user_record = Ok user_encoded /\
        asarray L (values X_encoded) = Ok encoded_reference /\
        asarray L (values user_encoded) = Ok encoded_user /\
        concatenate encoded_reference encoded_user = Ok X_combined /\
        impute_missing L X_combined = Ok user_imputed /\
        reducer_transform L reducer [user_imputed] = Ok user_reduced) /\
       (getitem dfsamples (level_label (level_radio ui)) = Ok y /\
        asarray L (values X_reference) = Ok reference /\
        knn_fit L {| n_neighbors := 9; weights := "distance"; n_jobs := 2 |}
                reference y = Ok knn) /\
       (predict L knn user_reduced = Ok labels /\
        getitem0 labels = Ok user_pop /\
        predict_proba L knn user_reduced = Ok probabilities /\
        getitem0 probabilities = Ok probs /\
        length probs = length (classes_ L knn)) /\
       st_text ("Your predicted population using KNN classifier is "
                +:+ label_of user_pop) ∈ tr /\
       st_dataframe {| index := ["me"];
                       columns := map label_of (classes_ L knn);
                       values := [map Flt probs] |} ∈ tr) /\
  (forall readme_text details dfsamples aisnps_1kg X_encoded encoder
          X_reference reducer userdf user_record appended user_encoded
          encoded_reference encoded_user X_combined user_imputed user_reduced
          y reference knn stacked dfsamples_me fig labels user_pop
          probabilities probs,
     get_file_content_as_string L "intro.md" = Ok readme_text ->
     get_1kg_samples L = Ok dfsamples ->
     vcf2df L (panel_file (aisnp_radio ui)) dfsamples = Ok aisnps_1kg ->
     encode_genotypes aisnps_1kg = Ok (X_encoded, encoder) ->
     dimensionality_reduction L X_encoded (reduction_label (reduction_radio ui))
       = Ok (Some X_reference, Some reducer) ->
     open_w L "user_snps_file.txt" = Ok tt ->
     copyfileobj L upload = Ok tt ->
     SNPs L upload = Ok userdf ->
     filter_user_genotypes userdf aisnps_1kg = (user_record, appended) ->
     ohe_transform encoder user_record = Ok user_encoded ->
     asarray L (values X_encoded) = Ok encoded_reference ->
     asarray L (values user_encoded) = Ok encoded_user ->
     concatenate encoded_reference encoded_user = Ok X_combined ->
     impute_missing L X_combined = Ok user_imputed ->
     reducer_transform L reducer [user_imputed] = Ok user_reduced ->
     getitem dfsamples (level_label (level_radio ui)) = Ok y ->
     asarray L (values X_reference) = Ok reference ->
     knn_fit L {| n_neighbors := 9; weights := "distance"; n_jobs := 2 |}
             reference y = Ok knn ->
     concatenate reference user_reduced = Ok stacked ->
     loc_set dfsamples "me" [Str "me"; Str "me"; Str "me"] = Ok dfsamples_me ->
     plot_3d (of_array stacked) dfsamples_me (level_label (level_radio ui))
       = Ok fig ->
     predict L knn user_reduced = Ok (user_pop :: labels) ->
     predict_proba L knn user_reduced = Ok (probs :: probabilities) ->
     length probs = length (classes_ L knn) ->
     get_file_content_as_string L "details.md" = Ok details ->
     exists tr,
       main L ui [] = (tr, Ok tt) /\
       st_text ("Your predicted population using KNN classifier is "
                +:+ label_of user_pop) ∈ tr /\
       st_dataframe {| index := ["me"];
                       columns := map label_of (classes_ L knn);
                       values := [map Flt probs] |} ∈ tr).
Proof.
  intros Hup. split.
  - intros tr. unfold main. rewrite Hup. repeat run_step.
    all: intros Hrun; simplify_eq.
    all: match goal with
         | Hfit : _ = Ok ?knn, Hpred : (predict _ ?knn _ ≫= _) = Ok _,
           Hdf : (getitem0 _ ≫= _) = Ok _ |- _ =>
             destruct (knn_stage _ _ _ _ _ _ _ _ _ _ Hfit Hpred Hdf)
               as (y & reference & labels & probs & Hy & Href & Hknn & Hlabels
                   & Hpop & Hprobs & Hlen & ->)
         end.
    all: match goal with
         | Hcat : (asarray _ _ ≫= _) = Ok ?c, Himp : impute_missing _ ?c = Ok _
           |- _ =>
             apply result_bind_Ok in Hcat as (encoded_reference & Hencr & Hcat);
             apply result_bind_Ok in Hcat as (encoded_user & Hencu & Hcat)
         end.
    all: do 22 eexists.
    all: split_and!; first [eassumption | reflexivity | rendered].
  - intros readme_text details dfsamples aisnps_1kg X_encoded encoder
      X_reference reducer userdf user_record appended user_encoded
      encoded_reference encoded_user X_combined user_imputed user_reduced
      y reference knn stacked dfsamples_me fig labels user_pop
      probabilities probs Hintro Hsamples Hvcf Henc Hred Hopen Hcopy Hparse
      Hfilter Huser Hencr Hencu Hcat Himp Htr Hy Href Hfit Hstack Hme Hplot
      Hpred Hproba Hlen Hdetails.
    assert ((a ← asarray L (values X_encoded);
             b ← asarray L (values user_encoded); concatenate a b)
            = Ok X_combined)
      as Hcombined by (rewrite Hencr; simpl; by rewrite Hencu).
    assert ((y ← getitem dfsamples (level_label (level_radio ui));
             X ← asarray L (values X_reference);
             knn_fit L {| n_neighbors := 9; weights := "distance"; n_jobs := 2 |}
                     X y) = Ok knn)
      as Hknn by (rewrite Hy; simpl; by rewrite Href).
    assert ((X ← asarray L (values X_reference); concatenate X user_reduced)
            = Ok stacked) as Hstacked by by rewrite Href.
    assert ((labels ← predict L knn user_reduced; getitem0 labels) = Ok user_pop)
      as Hpop by by rewrite Hpred.
    assert ((probs ← getitem0 (probs :: probabilities);
             DataFrame_of [map Flt probs] (map label_of (classes_ L knn)) ["me"])
            = Ok {| index := ["me"];
                    columns := map label_of (classes_ L knn);
                    values := [map Flt probs] |}) as Hdf.
    { simpl. unfold DataFrame_of, has_shape. simpl.
      rewrite !length_map, Hlen, bool_decide_eq_true_2 by done. done. }
    destruct (show_user_gts ui) eqn:Hgts, (show_1kg ui) eqn:H1kg.
    all: eexists; split;
      [match goal with
       | |- _ = ?page =>
           enough (forall out, main L ui [] = out -> out = page) by auto
       end;
       intros out; unfold main; rewrite Hup, ?Hgts, ?H1kg;
       repeat run_step_known; intros <-; reflexivity
      |split; rendered].
Qed.

Lemma knn_fit_on_reference_witness :
  exists (knn : Classifier Demo.libs) (user_pop : cell),
    knn_fit Demo.libs {| n_neighbors := 9; weights := "distance"; n_jobs := 2 |}
            [ [Fin 1; Fin 0; Fin 1]; [Fin 0; Fin 1; Fin 0] ]
            [Str "GBR"; Str "YRI"] = Ok knn /\
    st_text ("Your predicted population using KNN classifier is "
             +:+ label_of user_pop)
      ∈ (main Demo.libs (Demo.ui (Some "ok")) []).1.
Proof.
  destruct (proj1 (knn_fit_on_reference Demo.libs (Demo.ui (Some "ok")) "ok"
                     eq_refl)
                  (main Demo.libs (Demo.ui (Some "ok")) []).1)
    as (dfsamples & aisnps_1kg & X_encoded & encoder & X_reference & reducer
        & userdf & user_record & appended & user_encoded & encoded_reference
        & encoded_user & X_combined & user_imputed & user_reduced
        & y & reference & knn & labels & user_pop & probabilities & probs
        & Hsamples & Hvcf & Henc & Hred & _ & (Hy & Href & Hknn) & _
        & Htext & _).
  - vm_compute; reflexivity.
  - vm_compute in Hsamples. injection Hsamples as <-.
    vm_compute in Hvcf. injection Hvcf as <-.
    vm_compute in Henc. injection Henc as <- <-.
    vm_compute in Hred. injection Hred as <- _.
    vm_compute in Hy. injection Hy as <-.
    vm_compute in Href. injection Href as <-.
    exists knn, user_pop. split; [exact Hknn|exact Htext].
Defined.
(** * Further properties of the functions *)

(** ** The figure *)

Lemma plot_3d_rows (idx : list string) (rows : list (list cell)) :
  Forall (fun row => length row = 6%nat) rows ->
  length rows = length idx ->
  map (assign_row ["component_1"; "component_2"; "component_3";
                   "population"; "super population"; "gender"]
                  "size" (Flt (Fin 16))) rows
  = zip_with (fun (_ : string) row => row ++ [Flt (Fin 16)]) idx rows /\
  zip_with (fun i row =>
              if decide (i = "me")
              then zip_with (fun name old => if decide (name = "size")
                                             then Flt (Fin 75) else old)
                            plot_columns row
              else row)
           idx
           (zip_with (fun (_ : string) row => row ++ [Flt (Fin 16)]) idx rows)
  = zip_with (fun i row => row ++ [marker_size i]) idx rows.
Proof.
  intros Hrows. revert idx.
  induction Hrows as [|row rows Hrow _ IH]; intros [|i idx] Hlen;
    simpl in *; try done.
  destruct (IH idx) as [IH1 IH2]; [lia|]. rewrite IH1, IH2.
  do 7 (destruct row as [|? row]; try done).
  split; [done|]. f_equal. unfold marker_size. by case_decide.
Qed.

Lemma plot_3d_closed_form (X : list (list cell)) (dfsamples : DataFrame)
  (pop : string) (fig : Figure) :
  plot_3d X dfsamples pop = Ok fig ->
  fig = {| fig_data :=
             {| index := index dfsamples;
                columns := plot_columns;
                values := zip_with (fun i row => row ++ [marker_size i])
                                   (index dfsamples)
                                   (zip_with app X (values dfsamples)) |};
           fig_color := pop;
           fig_marker_size := if decide ("me" ∈ index dfsamples)
                              then None else Some 2%nat |} /\
  length X = length (values dfsamples) /\
  length X = length (index dfsamples) /\
  Forall (fun row => length row = 6%nat) (zip_with app X (values dfsamples)) /\
  pop ∈ plot_columns.
Proof.
  intros Hfig. unfold plot_3d in Hfig.
  apply result_bind_Ok in Hfig as (X' & HX & Hfig).
  apply result_bind_Ok in Hfig as (df & Hdf & Hfig).
  apply result_bind_Ok in Hfig as (fig0 & Hsc & Hfig).
  unfold hstack in HX.
  destruct (decide (length X = length (values dfsamples))) as [Hlen|];
    [|done].
  injection HX as <-.
  apply DataFrame_of_Ok in Hdf as (-> & Hn & Hrows).
  destruct (plot_3d_rows (index dfsamples) _ Hrows Hn) as [Hsize Hme].
  assert (length X = length (index dfsamples)) as Hidx.
  { rewrite <- Hn, length_zip_with. lia. }
  unfold scatter_3d in Hsc.
  destruct (decide ("me" ∈ index dfsamples)) as [Hin|Hnin].
  - destruct (decide (pop ∈ _)) as [Hpop|]; [|done]. injection Hsc as <-.
    rewrite decide_False in Hfig by auto. injection Hfig as <-.
    split_and!; try done.
    unfold loc_set_cell, setitem_scalar. cbn [index columns values fig_data].
    f_equal. f_equal. rewrite Hsize. exact Hme.
  - destruct (decide (pop ∈ _)) as [Hpop|]; [|done]. injection Hsc as <-.
    rewrite decide_True in Hfig by auto. injection Hfig as <-.
    split_and!; try done.
    unfold setitem_scalar. cbn [index columns values fig_data].
    f_equal. f_equal. rewrite Hsize.
    apply zip_with_pointwise. intros i row Hi. f_equal. f_equal.
    unfold marker_size. rewrite decide_False; [done|]. by intros ->.
Qed.

(** X2. The table of a figure [plot_3d] returns has the row labels of the
    sample table and the seven plot columns; its row number [i] is the
    [i]-th row of coordinates, then the [i]-th row of sample metadata, then
    the marker size: 75 for a row labelled "me", 16 for any other. The
    markers are coloured by [pop], and the uniform marker size 2 is forced
    exactly when no row is labelled "me". *)
Theorem plot_3d_rows_and_sizes (X : list (list cell)) (dfsamples : DataFrame)
  (pop : string) (fig : Figure) :
  plot_3d X dfsamples pop = Ok fig ->
  index (fig_data fig) = index dfsamples /\
  columns (fig_data fig) = plot_columns /\
  fig_color fig = pop /\
  length (values (fig_data fig)) = length (index dfsamples) /\
  (forall i label x m,
     index dfsamples !! i = Some label ->
     X !! i = Some x ->
     values dfsamples !! i = Some m ->
     values (fig_data fig) !! i = Some (x ++ m ++ [marker_size label]) /\
     (label = "me" -> last (x ++ m ++ [marker_size label]) = Some (Flt (Fin 75))) /\
     (label <> "me" -> last (x ++ m ++ [marker_size label]) = Some (Flt (Fin 16)))) /\
  (fig_marker_size fig = Some 2%nat <-> "me" ∉ index dfsamples) /\
  (fig_marker_size fig = None <-> "me" ∈ index dfsamples).
Proof.
  intros Hfig.
  apply plot_3d_closed_form in Hfig as (-> & Hlen & Hidx & Hrows & Hpop).
  cbn [fig_data fig_color fig_marker_size index columns values].
  split_and!; try done.
  - rewrite !length_zip_with. lia.
  - intros i label x m Hlabel Hx Hm. split_and!.
    + rewrite lookup_zip_with, Hlabel. simpl.
      rewrite lookup_zip_with, Hx. simpl. rewrite Hm. simpl.
      by rewrite <- app_assoc.
    + intros ->. by rewrite !app_assoc, last_snoc.
    + intros Hne. rewrite !app_assoc, last_snoc. unfold marker_size.
      by rewrite decide_False.
  - case_decide; split; done.
  - case_decide; split; done.
Qed.

Lemma plot_3d_rows_and_sizes_witness :
  exists fig,
    plot_3d [ [Flt (Fin 1); Flt (Fin 0); Flt (Fin 1)];
              [Flt (Fin 0); Flt (Fin 1); Flt (Fin 0)] ]
            {| index := ["HG1"; "me"];
               columns := ["population"; "super population"; "gender"];
               values := [ [Str "GBR"; Str "EUR"; Str "male"];
                           [Str "me"; Str "me"; Str "me"] ] |}
            "population" = Ok fig /\
    values (fig_data fig) !! 1%nat =
      Some [Flt (Fin 0); Flt (Fin 1); Flt (Fin 0);
            Str "me"; Str "me"; Str "me"; Flt (Fin 75)] /\
    fig_marker_size fig = None.
Proof.
  eexists. split; [reflexivity|].
  match goal with
  | |- context [fig_data ?f] =>
      destruct (plot_3d_rows_and_sizes
                  [ [Flt (Fin 1); Flt (Fin 0); Flt (Fin 1)];
                    [Flt (Fin 0); Flt (Fin 1); Flt (Fin 0)] ]
                  {| index := ["HG1"; "me"];
                     columns := ["population"; "super population"; "gender"];
                     values := [ [Str "GBR"; Str "EUR"; Str "male"];
                                 [Str "me"; Str "me"; Str "me"] ] |}
                  "population" f eq_refl)
        as (_ & _ & _ & _ & Hrow & _ & Hnone)
  end.
  split.
  - apply (Hrow 1%nat "me" [Flt (Fin 0); Flt (Fin 1); Flt (Fin 0)]
                [Str "me"; Str "me"; Str "me"]); reflexivity.
  - apply Hnone. apply list_elem_of_further, list_elem_of_here.
Defined.

(** X3. [plot_3d] returns a figure exactly when the coordinates, the sample
    table and its row labels have the same number of rows, every row of
    coordinates joined with its row of metadata has six cells, and [pop] is
    one of the seven plot columns; in every other case it raises
    [ValueError]. *)
Theorem plot_3d_Ok_iff (X : list (list cell)) (dfsamples : DataFrame)
  (pop : string) :
  ((exists fig, plot_3d X dfsamples pop = Ok fig) <->
   length X = length (values dfsamples) /\
   length X = length (index dfsamples) /\
   Forall (fun row => length row = 6%nat) (zip_with app X (values dfsamples)) /\
   pop ∈ plot_columns) /\
  (forall e, plot_3d X dfsamples pop = Raise e -> exists msg, e = ValueError msg).
Proof.
  split; [split|].
  - intros [fig Hfig]. apply plot_3d_closed_form in Hfig. tauto.
  - intros (Hlen & Hidx & Hrows & Hpop). unfold plot_3d, hstack.
    rewrite decide_True by done. simpl. unfold DataFrame_of.
    assert (has_shape (length (index dfsamples)) 6
              (zip_with app X (values dfsamples)) = true) as Hshape.
    { apply has_shape_spec. split; [|done]. rewrite length_zip_with. lia. }
    simpl length. rewrite Hshape. simpl. unfold scatter_3d.
    rewrite decide_True; [simpl; eauto|].
    by destruct (decide ("me" ∈ index dfsamples)).
  - intros e. unfold plot_3d, hstack.
    destruct (decide (length X = length (values dfsamples)));
      [|intros [= <-]; eauto].
    simpl. unfold DataFrame_of. destruct (has_shape _ _ _);
      [|intros [= <-]; eauto].
    simpl. unfold scatter_3d. destruct (decide (pop ∈ _));
      [discriminate|intros [= <-]; eauto].
Qed.

(** ** The sample metadata *)

Lemma elem_of_select (P : string -> Prop) `{!forall c, Decision (P c)}
  (c : string) (cs : list string) :
  c ∈ select (map (fun c' => bool_decide (P c')) cs) cs <-> c ∈ cs /\ P c.
Proof.
  induction cs as [|c' cs IH]; simpl.
  - rewrite elem_of_nil. tauto.
  - case_bool_decide as Hc.
    + rewrite !elem_of_cons, IH. split; [|tauto].
      intros [->|[? ?]]; tauto.
    + rewrite IH, elem_of_cons. split; [tauto|].
      intros [[->|?] ?]; tauto.
Qed.

(** X4. On a panel file whose header is the sample column, three columns
    of any names, and the two unnamed trailing columns, [get_1kg_samples]
    returns the table indexed by the sample column that keeps, for every
    row and in order, the three middle cells under the names population,
    super population and gender. *)
Theorem get_1kg_samples_table (L : Libs) (raw : DataFrame) (p sp g : string) :
  read_csv L "data/integrated_call_samples_v3.20130502.ALL.panel" = Ok raw ->
  columns raw = ["sample"; p; sp; g; "Unnamed: 4"; "Unnamed: 5"] ->
  Forall (fun c => c ∉ ["sample"; "Unnamed: 4"; "Unnamed: 5"]) [p; sp; g] ->
  Forall (fun row => length row = 6%nat) (values raw) ->
  get_1kg_samples L =
    Ok {| index := map (fun row => label_of (default null (head row))) (values raw);
          columns := ["population"; "super population"; "gender"];
          values := map (fun row => take 3 (drop 1 row)) (values raw) |}.
Proof.
  intros Hread Hcols Hnames Hrows.
  apply Forall_cons in Hnames as [Hp Hnames].
  apply Forall_cons in Hnames as [Hsp Hnames].
  apply Forall_cons in Hnames as [Hg _].
  rewrite !not_elem_of_cons in Hp, Hsp, Hg.
  destruct Hp as (Hp1 & Hp2 & Hp3 & _), Hsp as (Hs1 & Hs2 & Hs3 & _),
    Hg as (Hg1 & Hg2 & Hg3 & _).
  unfold get_1kg_samples. rewrite Hread. simpl.
  unfold set_index. rewrite Hcols. simpl.
  rewrite !bool_decide_eq_true_2 by done.
  unfold drop_columns. simpl.
  rewrite (bool_decide_eq_false_2 ("Unnamed: 4" ∉ _))
    by (intros Hn; apply Hn; do 3 apply list_elem_of_further;
        apply list_elem_of_here).
  rewrite (bool_decide_eq_false_2 ("Unnamed: 5" ∉ _))
    by (intros Hn; apply Hn; do 4 apply list_elem_of_further;
        apply list_elem_of_here).
  simpl.
  rewrite (bool_decide_eq_true_2 (p ∉ _)), (bool_decide_eq_true_2 (sp ∉ _)),
    (bool_decide_eq_true_2 (g ∉ _))
    by (rewrite !not_elem_of_cons; split_and!; auto using not_elem_of_nil).
  simpl. unfold set_columns. simpl. f_equal. f_equal.
  - rewrite map_map. apply map_ext_in. intros row _. by destruct row.
  - rewrite map_map. apply map_ext_in. intros row Hin%list_elem_of_In.
    rewrite Forall_forall in Hrows. specialize (Hrows row Hin).
    by do 7 (destruct row as [|? row]; try done).
Qed.

Lemma get_1kg_samples_table_witness :
  get_1kg_samples Demo.libs =
    Ok {| index := ["HG1"; "HG2"];
          columns := ["population"; "super population"; "gender"];
          values := [ [Str "GBR"; Str "EUR"; Str "male"];
                      [Str "YRI"; Str "AFR"; Str "female"] ] |}.
Proof.
  apply (get_1kg_samples_table Demo.libs Demo.panel "pop" "super_pop" "gender").
  - reflexivity.
  - reflexivity.
  - repeat constructor; by apply (bool_decide_unpack _).
  - by repeat constructor.
Defined.

(** X5. What [get_1kg_samples] requires of the panel file: without a
    column named sample, and with it but without one of the two unnamed
    trailing columns, it raises [KeyError]; and whenever it returns, the
    table has exactly the columns population, super population and gender,
    one row and one row label per row of the file. *)
Theorem get_1kg_samples_errors (L : Libs) (raw : DataFrame) :
  read_csv L "data/integrated_call_samples_v3.20130502.ALL.panel" = Ok raw ->
  ("sample" ∉ columns raw ->
   exists msg, get_1kg_samples L = Raise (KeyError msg)) /\
  ("sample" ∈ columns raw ->
   "Unnamed: 4" ∉ columns raw \/ "Unnamed: 5" ∉ columns raw ->
   exists msg, get_1kg_samples L = Raise (KeyError msg)) /\
  (forall df, get_1kg_samples L = Ok df ->
     columns df = ["population"; "super population"; "gender"] /\
     length (index df) = length (values raw) /\
     length (values df) = length (values raw) /\
     "sample" ∈ columns raw /\ "Unnamed: 4" ∈ columns raw /\
     "Unnamed: 5" ∈ columns raw).
Proof.
  intros Hread. unfold get_1kg_samples. rewrite Hread. cbn [mbind result_bind].
  unfold set_index.
  destruct (col_pos "sample" (columns raw)) as [j|] eqn:Hpos.
  - assert ("sample" ∈ columns raw) as Hsample.
    { destruct (decide ("sample" ∈ columns raw)) as [|Hn]; [done|].
      apply col_pos_None in Hn. congruence. }
    cbn [mbind result_bind]. unfold drop_columns.
    cbn [columns index values List.filter].
    set (cols := select (map (fun c' => bool_decide (c' ≠ "sample")) (columns raw))
                        (columns raw)).
    assert (forall c, c ≠ "sample" -> c ∈ cols <-> c ∈ columns raw) as Hcols.
    { intros c Hc. subst cols.
      rewrite (elem_of_select (fun c' => c' ≠ "sample")). tauto. }
    replace (bool_decide ("Unnamed: 4" ∉ cols))
      with (bool_decide ("Unnamed: 4" ∉ columns raw))
      by (apply bool_decide_ext; by rewrite Hcols).
    replace (bool_decide ("Unnamed: 5" ∉ cols))
      with (bool_decide ("Unnamed: 5" ∉ columns raw))
      by (apply bool_decide_ext; by rewrite Hcols).
    destruct (decide ("Unnamed: 4" ∈ columns raw)) as [H4|H4],
      (decide ("Unnamed: 5" ∈ columns raw)) as [H5|H5].
    all: rewrite ?(bool_decide_eq_false_2 ("Unnamed: 4" ∉ columns raw)),
           ?(bool_decide_eq_false_2 ("Unnamed: 5" ∉ columns raw)),
           ?(bool_decide_eq_true_2 ("Unnamed: 4" ∉ columns raw)),
           ?(bool_decide_eq_true_2 ("Unnamed: 5" ∉ columns raw))
        by (done || by intros Hn; apply Hn).
    all: cbn [mbind result_bind].
    all: split_and!; [done| |].
    all: try (intros _ _; eexists; reflexivity).
    all: try done.
    + intros _ [Hn|Hn]; done.
    + unfold set_columns. cbn [columns index values].
      intros df. case_decide; [|done]. intros [= <-].
      cbn [columns index values]. rewrite !length_map. done.
  - apply col_pos_None in Hpos. split_and!; [eauto|done|done].
Qed.

Lemma get_1kg_samples_errors_witness :
  exists msg,
    get_1kg_samples (Demo.libs_of (Ok Demo.dfsamples3) (Ok Demo.vcf))
    = Raise (KeyError msg).
Proof.
  apply (proj1 (get_1kg_samples_errors
                  (Demo.libs_of (Ok Demo.dfsamples3) (Ok Demo.vcf))
                  Demo.dfsamples3 eq_refl)).
  by apply (bool_decide_unpack _).
Defined.

(** ** The genotype table *)

Lemma rows_at_lookup (df : DataFrame) (i : nat) (s : string) (row : list cell) :
  NoDup (index df) ->
  index df !! i = Some s -> values df !! i = Some row ->
  rows_at df s = [row].
Proof.
  unfold rows_at. generalize (values df) as rows. revert i.
  induction (index df) as [|k idx IH]; intros i rows Hnd Hi Hrow; [done|].
  destruct rows as [|r rows]; [by destruct i|].
  apply NoDup_cons in Hnd as [Hk Hnd]. destruct i as [|i]; simpl in *.
  - injection Hi as ->. injection Hrow as ->. rewrite decide_True by done.
    f_equal.
    change (rows_at {| index := idx; columns := []; values := rows |} s = []).
    by apply rows_at_absent.
  - rewrite decide_False.
    + by apply (IH i).
    + intros ->. apply Hk. by eapply list_elem_of_lookup_2.
Qed.

Lemma rows_at_blocks (f : string -> list (list cell)) (keys cs : list string)
  (s : string) :
  NoDup keys ->
  (forall k, k ∈ keys -> length (f k) = 1%nat) ->
  rows_at {| index := keys; columns := cs;
             values := flat_map snd (map (fun k => (k, f k)) keys) |} s
  = if decide (s ∈ keys) then f s else [].
Proof.
  intros Hnd Hone. destruct (decide (s ∈ keys)) as [Hs|Hs];
    [|by apply rows_at_absent].
  unfold rows_at. cbn [index values].
  induction keys as [|k keys IH]; [by apply elem_of_nil in Hs|].
  apply NoDup_cons in Hnd as [Hk Hnd].
  pose proof (Hone k (list_elem_of_here _ _)) as Hfk.
  simpl. destruct (f k) as [|row [|? ?]] eqn:Hf; simpl in *; try done.
  destruct (decide (k = s)) as [->|Hne].
  - rewrite Hf. f_equal.
    change (rows_at {| index := keys; columns := [];
                       values := flat_map snd (map (fun k => (k, f k)) keys) |}
                    s = []).
    by apply rows_at_absent.
  - apply IH; [done| |].
    + intros k' Hk'. by apply Hone, list_elem_of_further.
    + apply elem_of_cons in Hs as [->|Hs]; done.
Qed.

(** The loop of [vcf2df] when no two records share an ID: every record
    adds one column, its calls without bars. *)
Lemma vcf2df_loop_cells (vs : list Variant) (df0 : DataFrame) :
  NoDup (map ID vs) ->
  (forall v, v ∈ vs -> ID v ∉ columns df0) ->
  length (values df0) = length (index df0) ->
  Forall (fun v => length (gt_bases v) = length (index df0)) vs ->
  exists df,
    foldl (fun acc variant =>
             df ← acc;
             setitem df (ID variant)
                     (map (fun gt => Str (remove_bar gt)) (gt_bases variant)))
          (Ok df0) vs = Ok df /\
    index df = index df0 /\
    columns df = columns df0 ++ map ID vs /\
    length (values df) = length (index df0) /\
    (forall i row, values df0 !! i = Some row ->
       values df !! i =
         Some (row ++ map (fun v => Str (remove_bar (default "" (gt_bases v !! i)))) vs)).
Proof.
  revert df0. induction vs as [|v vs IH]; intros df0 Hnd Hfresh Hvals Hgts.
  - exists df0. simpl. rewrite app_nil_r. split_and!; try done.
    intros i row Hrow. by rewrite app_nil_r.
  - apply NoDup_cons in Hnd as [Hv Hnd].
    apply Forall_cons in Hgts as [Hgt Hgts].
    assert (ID v ∉ columns df0) as Hnew by apply Hfresh, list_elem_of_here.
    cbn [foldl]. unfold setitem at 2. cbn [mbind result_bind].
    rewrite length_map, decide_True by done.
    match goal with |- context [foldl _ (Ok ?d) vs] => set (df1 := d) end.
    destruct (IH df1) as (df & Hfold & Hidx & Hcols & Hlen & Hcell).
    + done.
    + intros v' Hv'. subst df1. cbn [columns]. unfold assign_cols.
      rewrite decide_False by done. rewrite not_elem_of_app.
      split; [by apply Hfresh, list_elem_of_further|].
      rewrite list_elem_of_singleton. intros Heq. apply Hv.
      rewrite <- Heq. by apply list_elem_of_fmap_2.
    + subst df1. cbn [index values]. rewrite length_zip_with, length_map. lia.
    + done.
    + exists df. split; [exact Hfold|]. subst df1. cbn [index columns values] in *.
      unfold assign_cols in Hcols. rewrite decide_False in Hcols by done.
      split_and!; [done|by rewrite Hcols, <- app_assoc|done|].
      intros i row Hrow. rewrite (Hcell i (row ++ [Str (remove_bar (default "" (gt_bases v !! i)))])).
      * by rewrite <- app_assoc.
      * rewrite lookup_zip_with, list_lookup_fmap, Hrow.
        assert (i < length (gt_bases v))%nat as Hi.
        { rewrite Hgt, <- Hvals. by eapply lookup_lt_Some. }
        apply lookup_lt_is_Some_2 in Hi as [gt Hgt'].
        rewrite Hgt'. simpl. unfold assign_row.
        by rewrite decide_False by done.
Qed.

(** X6. The cells of the genotype table. For a variant file with distinct
    sample names and distinct record IDs, one call per sample in every
    record, and sample metadata with distinct row labels and no column
    named like a record: the row of the [i]-th sample of the file holds
    its calls in file order with the phase bars removed, followed by its
    metadata, or by nulls when the metadata does not list it; a sample
    the metadata alone lists has nulls for every genotype, followed by its
    metadata; no other row label occurs. *)
Theorem vcf2df_cells (L : Libs) (vcf_fname : string) (dfsamples : DataFrame)
  (vcf : VCFfile) :
  VCF L vcf_fname = Ok vcf ->
  NoDup (samples vcf) ->
  NoDup (map ID (variants vcf)) ->
  Forall (fun v => length (gt_bases v) = length (samples vcf)) (variants vcf) ->
  NoDup (index dfsamples) ->
  length (values dfsamples) = length (index dfsamples) ->
  (forall v, v ∈ variants vcf -> ID v ∉ columns dfsamples) ->
  exists df,
    vcf2df L vcf_fname dfsamples = Ok df /\
    columns df = map ID (variants vcf) ++ columns dfsamples /\
    (forall i s, samples vcf !! i = Some s ->
       rows_at df s =
         [genotype_row vcf i ++
          match rows_at dfsamples s with
          | m :: _ => m
          | [] => nulls (length (columns dfsamples))
          end]) /\
    (forall s, s ∉ samples vcf -> s ∈ index dfsamples ->
       exists m, rows_at dfsamples s = [m] /\
                 rows_at df s = [nulls (length (variants vcf)) ++ m]) /\
    (forall s, s ∉ samples vcf -> s ∉ index dfsamples -> rows_at df s = []).
Proof.
  intros Hvcf Hsamples Hids Hgts Hmeta Hmetav Hfresh.
  unfold vcf2df. rewrite Hvcf. cbn [mbind result_bind].
  destruct (vcf2df_loop_cells (variants vcf) (DataFrame_empty (samples vcf) []))
    as (df1 & -> & Hidx & Hcols & Hlen & Hcell); try done.
  { intros v _. apply not_elem_of_nil. }
  { unfold DataFrame_empty. cbn [values index]. by rewrite length_map. }
  cbn [DataFrame_empty index columns values app] in Hidx, Hcols, Hlen, Hcell.
  cbn [mbind result_bind].
  destruct (join_outer_blocks df1 dfsamples) as (keys & Hkeys & Hin & ->);
    rewrite ?Hidx; try done.
  { intros c Hc. rewrite Hcols in Hc.
    apply list_elem_of_fmap in Hc as (v & -> & Hv). by apply Hfresh. }
  rewrite Hidx in Hin.
  assert (forall k, k ∈ keys -> length (join_key df1 dfsamples k) = 1%nat) as Hone.
  { intros k Hk. apply join_key_single; rewrite ?Hidx; try done.
    apply elem_of_app. by apply Hin. }
  cbn [mbind result_bind]. eexists. split; [reflexivity|]. cbn [columns].
  split; [by rewrite Hcols|].
  assert (forall s, s ∈ index dfsamples ->
            exists m, rows_at dfsamples s = [m]) as Hm.
  { intros s Hs. pose proof (rows_at_length dfsamples s Hmeta Hmetav) as Hl.
    rewrite decide_True in Hl by done.
    destruct (rows_at dfsamples s) as [|m [|? ?]]; try done. by exists m. }
  assert (forall s, s ∉ index dfsamples -> rows_at dfsamples s = []) as Hnm
    by (intros s; apply rows_at_absent).
  split_and!.
  - intros i s Hs. rewrite rows_at_blocks by done.
    rewrite decide_True by (apply Hin; left; by eapply list_elem_of_lookup_2).
    unfold join_key.
    assert (rows_at df1 s = [genotype_row vcf i]) as ->.
    { apply (rows_at_lookup df1 i); rewrite ?Hidx; try done.
      apply (Hcell i []). rewrite list_lookup_fmap, Hs. done. }
    destruct (decide (s ∈ index dfsamples)) as [Hsm|Hsm].
    + destruct (Hm s Hsm) as [m ->]. done.
    + rewrite (Hnm s Hsm). done.
  - intros s Hs Hsm. destruct (Hm s Hsm) as [m Hrow]. exists m.
    split; [done|]. rewrite rows_at_blocks by done.
    rewrite decide_True by (apply Hin; by right).
    unfold join_key. rewrite rows_at_absent by by rewrite Hidx.
    rewrite Hrow, Hcols, length_map. done.
  - intros s Hs Hsm. rewrite rows_at_blocks by done.
    rewrite decide_False; [done|]. rewrite Hin. tauto.
Qed.

Lemma vcf2df_cells_witness :
  exists df,
    vcf2df Demo.libs "data/Kidd.55AISNP.1kG.vcf" Demo.dfsamples3 = Ok df /\
    rows_at df "HG2" = [ [Str "AG"; Str "CT"; Str "YRI"; Str "AFR"; Str "female"] ] /\
    rows_at df "HG3" = [ [null; null; Str "CHB"; Str "EAS"; Str "female"] ].
Proof.
  destruct (vcf2df_cells Demo.libs "data/Kidd.55AISNP.1kG.vcf" Demo.dfsamples3
              Demo.vcf eq_refl) as (df & Hdf & _ & Hrow & Hmeta & _).
  - by apply (bool_decide_unpack _).
  - by apply (bool_decide_unpack _).
  - by repeat constructor.
  - by apply (bool_decide_unpack _).
  - reflexivity.
  - intros v Hv. apply (bool_decide_unpack _).
    revert v Hv. apply Forall_forall. by repeat constructor.
  - exists df. split; [exact Hdf|]. split.
    + exact (Hrow 1%nat "HG2" eq_refl).
    + destruct (Hmeta "HG3") as (m & Hm & Hrows).
      * by apply (bool_decide_unpack _).
      * by apply (bool_decide_unpack _).
      * vm_compute in Hm. injection Hm as <-. exact Hrows.
Defined.

(** X7. When [vcf2df] fails on a variant file it could open. For a file
    with one call per sample in every record, [vcf2df] returns a table
    exactly when no record ID is also a column of the sample metadata; when
    one is, the join raises [ValueError] for the overlapping columns. *)
Theorem vcf2df_errors (L : Libs) (vcf_fname : string) (dfsamples : DataFrame)
  (vcf : VCFfile) :
  VCF L vcf_fname = Ok vcf ->
  Forall (fun v => length (gt_bases v) = length (samples vcf)) (variants vcf) ->
  ((exists df, vcf2df L vcf_fname dfsamples = Ok df) <->
   forall v, v ∈ variants vcf -> ID v ∉ columns dfsamples) /\
  ((exists v, v ∈ variants vcf /\ ID v ∈ columns dfsamples) ->
   exists msg, vcf2df L vcf_fname dfsamples = Raise (ValueError msg)).
Proof.
  intros Hvcf Hgts. unfold vcf2df. rewrite Hvcf. cbn [mbind result_bind].
  destruct (vcf2df_loop (variants vcf) (DataFrame_empty (samples vcf) []))
    as (df1 & -> & Hidx & Hcols & Hlen).
  { unfold DataFrame_empty. cbn [values index]. by rewrite length_map. }
  { done. }
  cbn [mbind result_bind]. unfold join_outer.
  assert (existsb (fun c => bool_decide (c ∈ columns dfsamples)) (columns df1)
          = true <-> exists v, v ∈ variants vcf /\ ID v ∈ columns dfsamples)
    as Hclash.
  { rewrite existsb_exists. split.
    - intros (c & Hc & Hin). apply bool_decide_eq_true in Hin.
      apply list_elem_of_In in Hc. rewrite Hcols in Hc.
      change (c ∈ unique (map ID (variants vcf))) in Hc.
      apply unique_elem_of, list_elem_of_fmap in Hc as (v & -> & Hv). eauto.
    - intros (v & Hv & Hin). exists (ID v). split.
      + apply list_elem_of_In. rewrite Hcols.
        change (ID v ∈ unique (map ID (variants vcf))).
        apply unique_elem_of. by apply list_elem_of_fmap_2.
      + by apply bool_decide_eq_true. }
  destruct (existsb _ (columns df1)); cbn [mbind result_bind].
  - destruct (proj1 Hclash eq_refl) as (v & Hv & Hin). split.
    + split; [by intros [df ?]|]. intros Hall. by destruct (Hall v Hv).
    + intros _. eauto.
  - split.
    + split.
      * intros _ v Hv Hin. by assert (false = true) by (apply Hclash; eauto).
      * intros _. repeat case_decide; cbn [mbind result_bind]; eauto.
    + intros Hex. by apply Hclash in Hex.
Qed.

Lemma vcf2df_errors_witness :
  exists msg,
    vcf2df (Demo.libs_of (Ok Demo.panel) (Ok Demo.vcf_gender)) "any.vcf"
           Demo.dfsamples3
      = Raise (ValueError msg).
Proof.
  apply (proj2 (vcf2df_errors (Demo.libs_of (Ok Demo.panel) (Ok Demo.vcf_gender))
                  "any.vcf" Demo.dfsamples3 Demo.vcf_gender eq_refl
                  ltac:(by repeat constructor))).
  exists {| ID := "gender"; gt_bases := ["C|C"; "C|T"] |}. split.
  - apply list_elem_of_further, list_elem_of_here.
  - do 2 apply list_elem_of_further. apply list_elem_of_here.
Defined.

(** X8. Removing the phase bars, as [vcf2df] does to every call: no bar is
    left, the other characters stay in their order (the result is the call
    filtered by "is not a bar"), a call without bars is unchanged, and
    removing twice is removing once. *)
Theorem remove_bar_spec (s : string) :
  (bar ∉ String.list_ascii_of_string (remove_bar s)) /\
  String.list_ascii_of_string (remove_bar s)
    = List.filter (fun a => negb (Ascii.eqb a bar)) (String.list_ascii_of_string s) /\
  (bar ∉ String.list_ascii_of_string s -> remove_bar s = s) /\
  remove_bar (remove_bar s) = remove_bar s.
Proof.
  assert (bar ∉ String.list_ascii_of_string (remove_bar s)) as Hno.
  { induction s as [|a s IH]; simpl; [apply not_elem_of_nil|].
    fold bar. destruct (Ascii.eqb_spec a bar) as [->|Hne]; [done|].
    simpl. rewrite not_elem_of_cons. by split. }
  assert (forall t, bar ∉ String.list_ascii_of_string t -> remove_bar t = t) as Hid.
  { induction t as [|a t IH]; simpl; [done|].
    rewrite not_elem_of_cons. intros [Hne Ht]. fold bar.
    destruct (Ascii.eqb_spec a bar) as [->|_]; [done|]. by rewrite IH. }
  split_and!; [done| |apply Hid|by apply Hid].
  clear Hno. induction s as [|a s IH]; simpl; [done|]. fold bar.
  destruct (Ascii.eqb_spec a bar); simpl; by rewrite IH.
Qed.

(** ** The user record, again *)

(** X9. [filter_user_genotypes] reads nothing of the upload but the
    genotypes stored under the column labels of the reference table: two
    uploads that agree there give the same user record and the same
    appended table, whatever else they hold (other SNPs, positions,
    chromosomes); in particular, dropping from the upload every SNP that is
    no column of the reference table changes nothing. *)
Theorem filter_user_genotypes_panel_only (userdf : gmap string SNP)
  (aisnps_1kg : DataFrame) :
  (forall userdf' : gmap string SNP,
     (forall c, c ∈ columns aisnps_1kg ->
        genotype <$> userdf' !! c = genotype <$> userdf !! c) ->
     filter_user_genotypes userdf' aisnps_1kg
       = filter_user_genotypes userdf aisnps_1kg) /\
  filter_user_genotypes
    (filter (fun kv => kv.1 ∈ columns aisnps_1kg) userdf) aisnps_1kg
    = filter_user_genotypes userdf aisnps_1kg.
Proof.
  assert (forall userdf' : gmap string SNP,
            (forall c, c ∈ columns aisnps_1kg ->
               genotype <$> userdf' !! c = genotype <$> userdf !! c) ->
            filter_user_genotypes userdf' aisnps_1kg
              = filter_user_genotypes userdf aisnps_1kg) as Hagree.
  { intros userdf' Hsame. unfold filter_user_genotypes, DataFrame_empty.
    cbn [index columns values map].
    rewrite !filter_loop by (done || by rewrite length_map).
    assert (forall base : list cell,
              zip_with (fun c old => if decide (c ∈ columns aisnps_1kg)
                                     then from_option genotype old (userdf' !! c)
                                     else old) (columns aisnps_1kg) base
              = zip_with (fun c old => if decide (c ∈ columns aisnps_1kg)
                                       then from_option genotype old (userdf !! c)
                                       else old) (columns aisnps_1kg) base)
      as Hrow.
    { intros base. apply zip_with_pointwise. intros c old Hc.
      specialize (Hsame c Hc). rewrite !decide_True by done.
      destruct (userdf' !! c), (userdf !! c); simplify_eq/=; done. }
    by rewrite Hrow. }
  split; [exact Hagree|]. apply Hagree. intros c Hc.
  rewrite map_lookup_filter. destruct (userdf !! c) as [row|]; [|done].
  simpl. by rewrite option_guard_True.
Qed.

(** ** Imputation, again *)

Lemma rint_Q_integer (n : Z) : rint_Q (inject_Z n) = n.
Proof.
  unfold rint_Q. rewrite Qfloor_Z.
  assert ((inject_Z n - inject_Z n ?= 1 # 2)%Q = Lt) as ->; [|done].
  apply (proj1 (Qlt_alt _ _)). lra.
Qed.

(** X10. Whatever [impute_missing] returns is the rounded last row of the
    matrix the imputer produced: it has one value per column of that row,
    every value is NaN or an integer, rounding it again changes nothing,
    and a cell of the imputed row that already is an integer (an observed
    one-hot indicator) comes back as it was. *)
Theorem impute_missing_integral (L : Libs) (aisnps_1kg : ndarray)
  (user_imputed : list float64) :
  impute_missing L aisnps_1kg = Ok user_imputed ->
  exists imputed_aisnps user_row,
    KNNImputer_fit_transform L 9 aisnps_1kg = Ok imputed_aisnps /\
    last imputed_aisnps = Some user_row /\
    length user_imputed = length user_row /\
    Forall (fun x => x = NaN \/ exists n : Z, x = Fin (inject_Z n)) user_imputed /\
    map rint user_imputed = user_imputed /\
    (forall i n, user_row !! i = Some (Fin (inject_Z n)) ->
       user_imputed !! i = Some (Fin (inject_Z n))).
Proof.
  unfold impute_missing. intros Himp.
  apply result_bind_Ok in Himp as (M & HM & Himp).
  destruct (last M) as [row|] eqn:Hlast; [|done]. injection Himp as <-.
  exists M, row. split_and!; try done.
  - by rewrite length_map.
  - apply Forall_fmap, Forall_forall. intros [q|] _; simpl; eauto.
  - rewrite map_map. apply map_ext. intros [q|]; simpl; [|done].
    by rewrite rint_Q_integer.
  - intros i n Hi. rewrite list_lookup_fmap, Hi. simpl.
    by rewrite rint_Q_integer.
Qed.

Lemma impute_missing_integral_witness :
  exists imputed_aisnps user_row,
    KNNImputer_fit_transform Demo.libs 9 Demo.combined = Ok imputed_aisnps /\
    last imputed_aisnps = Some user_row /\
    length [Fin 0; Fin 1; Fin 2] = length user_row /\
    Forall (fun x => x = NaN \/ exists n : Z, x = Fin (inject_Z n))
           [Fin 0; Fin 1; Fin 2] /\
    map rint [Fin 0; Fin 1; Fin 2] = [Fin 0; Fin 1; Fin 2] /\
    (forall i n, user_row !! i = Some (Fin (inject_Z n)) ->
       [Fin 0; Fin 1; Fin 2] !! i = Some (Fin (inject_Z n))).
Proof.
  apply (impute_missing_integral Demo.libs Demo.combined). reflexivity.
Defined.

(** ** Encoding the reference table and the user record *)

Lemma ohe_rows (idx : list string)
  (blocks : list (list string * list (list cell))) :
  Forall (fun b => length b.2 = length idx /\
                   Forall (fun r => length r = length b.1 /\ Forall is_float r) b.2)
         blocks ->
  let rows := foldr (fun b acc => zip_with app b.2 acc)
                    (map (fun _ => []) idx) blocks in
  length rows = length idx /\
  Forall (fun row => length row = length (flat_map fst blocks) /\
                     Forall is_float row) rows.
Proof.
  induction 1 as [|b bs [Hn Hb] _ [IH1 IH2]]; simpl.
  - rewrite length_map. split; [done|].
    apply Forall_fmap, Forall_forall. by intros ? _.
  - rewrite length_zip_with, IH1, Hn. split; [lia|].
    revert IH2 Hb. generalize (foldr (fun b acc => zip_with app b.2 acc)
                                     (map (fun _ => []) idx) bs) as acc.
    generalize (b.2) as rs. induction rs as [|r rs IHr]; intros acc Hacc Hrs;
      [constructor|].
    destruct acc as [|a acc]; [constructor|]. simpl.
    apply Forall_cons in Hacc as [[Ha Haf] Hacc].
    apply Forall_cons in Hrs as [[Hr Hrf] Hrs].
    constructor; [|by apply IHr].
    rewrite !length_app, Ha, Hr. split; [done|]. by apply Forall_app.
Qed.

Lemma ohe_transform_frame (ohe : OneHotEncoder) (X Y : DataFrame) :
  ohe_transform ohe X = Ok Y ->
  length (values X) = length (index X) ->
  index Y = index X /\
  columns Y = flat_map (fun m => indicator_names m.1 m.2) (mapping ohe) /\
  length (values Y) = length (index X) /\
  Forall (fun row => length row = length (columns Y) /\ Forall is_float row)
         (values Y).
Proof.
  unfold ohe_transform. case_decide; [|done]. intros Ht Hlen.
  apply result_bind_Ok in Ht as (blocks & Hblocks & [= <-]).
  apply ohe_blocks in Hblocks as [Hcols Hinv]. rewrite Hlen in Hinv.
  destruct (ohe_rows (index X) blocks Hinv) as [Hn Hrows].
  cbn [index columns values]. split_and!; try done.
Qed.

Lemma asarray_total (L : Libs) (data : list (list cell)) :
  Forall (Forall is_float) data ->
  exists a, asarray L data = Ok a /\ of_array a = data.
Proof.
  intros Hdata. destruct (mapM_total (mapM (to_float L)) data) as [a Ha].
  - eapply Forall_impl; [exact Hdata|]. intros row Hrow.
    apply mapM_total. eapply Forall_impl; [exact Hrow|].
    intros c [x ->]. by exists x.
  - exists a. split; [done|]. by apply (asarray_Ok L).
Qed.

Lemma filter_user_genotypes_frame (userdf : gmap string SNP)
  (aisnps_1kg : DataFrame) :
  index (filter_user_genotypes userdf aisnps_1kg).1 = ["your_sample"] /\
  columns (filter_user_genotypes userdf aisnps_1kg).1 = columns aisnps_1kg /\
  length (values (filter_user_genotypes userdf aisnps_1kg).1) = 1%nat.
Proof.
  unfold filter_user_genotypes, DataFrame_empty. cbn [index columns values map fst].
  by rewrite filter_loop by (done || by rewrite length_map).
Qed.

(** X11. Encoding composes with filtering: once [encode_genotypes] has
    returned the matrix and the encoder for a reference table with one row
    per row label, the same encoder accepts the user record that
    [filter_user_genotypes] builds from any upload; the encoded record is
    one row labelled your_sample under the very columns of the reference
    matrix, both are arrays of floats with rows as wide as those columns,
    and stacking the user's row under the reference rows succeeds. *)
Theorem user_encoding_composes (L : Libs) (userdf : gmap string SNP)
  (aisnps_1kg X_encoded : DataFrame) (encoder : OneHotEncoder) :
  length (values aisnps_1kg) = length (index aisnps_1kg) ->
  encode_genotypes aisnps_1kg = Ok (X_encoded, encoder) ->
  exists user_encoded reference user,
    ohe_transform encoder (filter_user_genotypes userdf aisnps_1kg).1
      = Ok user_encoded /\
    index user_encoded = ["your_sample"] /\
    columns user_encoded = columns X_encoded /\
    index X_encoded = index aisnps_1kg /\
    asarray L (values X_encoded) = Ok reference /\
    asarray L (values user_encoded) = Ok user /\
    length reference = length (index aisnps_1kg) /\
    length user = 1%nat /\
    Forall (fun row => length row = length (columns X_encoded))
           (reference ++ user) /\
    concatenate reference user = Ok (reference ++ user).
Proof.
  intros Hlen Henc. unfold encode_genotypes, ohe_fit_transform in Henc.
  destruct (ohe_fit _ _ aisnps_1kg) as [ohe|] eqn:Hfit; [|done].
  cbn [mbind result_bind] in Henc.
  destruct (ohe_transform ohe aisnps_1kg) as [Xt|] eqn:Ht; [|done].
  cbn [mbind result_bind] in Henc. injection Henc as <- <-.
  destruct (ohe_transform_frame _ _ _ Ht Hlen) as (Hidx & Hcols & Hn & Hrows).
  unfold reindex. rewrite decide_True by done.
  destruct (ohe_fit_total (columns aisnps_1kg) "return_nan" aisnps_1kg)
    as (ohe' & Hfit' & Hmap); [done|].
  rewrite Hfit in Hfit'. injection Hfit' as <-.
  destruct (filter_user_genotypes_frame userdf aisnps_1kg) as (Hui & Huc & Hun).
  set (user_record := (filter_user_genotypes userdf aisnps_1kg).1) in *.
  destruct (ohe_transform_total ohe user_record) as [U HU].
  { rewrite Huc. by apply (ohe_fit_dim _ _ _ _ Hfit). }
  { by rewrite Huc. }
  destruct (ohe_transform_frame _ _ _ HU) as (HUi & HUc & HUn & HUrows).
  { by rewrite Hun, Hui. }
  destruct (asarray_total L (values Xt)) as (A & HA & HAof).
  { eapply Forall_impl; [exact Hrows|]. by intros row [_ ?]. }
  destruct (asarray_total L (values U)) as (B & HB & HBof).
  { eapply Forall_impl; [exact HUrows|]. by intros row [_ ?]. }
  assert (columns U = columns Xt) as Hsame by by rewrite HUc, Hcols.
  assert (Forall (fun row => length row = length (columns Xt)) A) as HAw.
  { rewrite <- HAof in Hrows. unfold of_array in Hrows.
    apply Forall_fmap in Hrows. eapply Forall_impl; [exact Hrows|].
    intros row [Hw _]. simpl in Hw. by rewrite length_map in Hw. }
  assert (Forall (fun row => length row = length (columns Xt)) B) as HBw.
  { rewrite <- HBof in HUrows. unfold of_array in HUrows.
    apply Forall_fmap in HUrows. eapply Forall_impl; [exact HUrows|].
    intros row [Hw _]. simpl in Hw. rewrite length_map in Hw. congruence. }
  assert (length A = length (index aisnps_1kg)) as HAn.
  { rewrite <- Hn, <- HAof. unfold of_array. by rewrite length_map. }
  assert (length B = 1%nat) as HBn.
  { rewrite <- HBof, Hui in HUn. unfold of_array in HUn.
    by rewrite length_map in HUn. }
  exists U, A, B. split_and!; try done.
  - by rewrite HUi.
  - by apply Forall_app.
  - unfold concatenate. destruct A as [|ra A], B as [|rb B]; try done.
    cbn [width]. apply Forall_cons in HAw as [-> _].
    apply Forall_cons in HBw as [-> _]. by rewrite decide_True.
Qed.

Lemma user_encoding_composes_witness :
  exists user_encoded,
    ohe_transform
      {| cols := ["rs1"; "rs2"]; handle_missing := "return_nan"; _dim := 2;
         mapping := [("rs1", [Str "AA"; Str "AG"]); ("rs2", [Str "CC"; Str "CT"])] |}
      (filter_user_genotypes Demo.upload Demo.genotypes).1 = Ok user_encoded /\
    columns user_encoded = columns Demo.encoded.
Proof.
  destruct (user_encoding_composes Demo.libs Demo.upload Demo.genotypes
              Demo.encoded
              {| cols := ["rs1"; "rs2"]; handle_missing := "return_nan"; _dim := 2;
                 mapping := [("rs1", [Str "AA"; Str "AG"]);
                             ("rs2", [Str "CC"; Str "CT"])] |}
              eq_refl eq_refl)
    as (U & A & B & HU & _ & Hcols & _).
  exists U. split; [exact HU|exact Hcols].
Defined.

(** ** The page *)

Lemma main_no_upload_witness :
  exists fig,
    main Demo.libs (Demo.ui None) [] =
      ([st_markdown ("# ezancestry" +:+ nl); st_plotly_chart fig;
        st_markdown "details"], Ok tt) /\
    fig_marker_size fig = Some 2%nat /\
    index (fig_data fig) = ["HG1"; "HG2"].
Proof.
  eexists. split.
  - eapply (main_no_upload Demo.libs (Demo.ui None));
      vm_compute; reflexivity.
  - split; vm_compute; reflexivity.
Defined.

(** The way the [try] block raised, read off the outcomes of its steps. *)
Ltac solve_try_raises :=
  first
    [ left; split; [eassumption|reflexivity]
    | right; left; split_and!; [eassumption|eassumption|reflexivity]
    | right; right; split_and!; [eassumption|eassumption|eassumption|reflexivity] ].

(** X12. What only an upload brings to the page. In every run of [main]:
    an error message is shown only when there is an upload on which the
    [try] block raised (opening the file, the copy or the parser), it
    carries the text of that exception, and such a run ends with
    [UnboundLocalError] for [userdf]; a file is written only for an upload,
    to user_snps_file.txt, and it is left empty or with the upload as
    content; and the prediction text is shown only after an upload that was
    copied and parsed. *)
Theorem main_upload_effects (L : Libs) (ui : Sidebar) (tr : list effect)
  (r : result unit) :
  main L ui [] = (tr, r) ->
  (forall msg, st_error msg ∈ tr ->
     exists upload written e,
       file_uploader ui = Some upload /\ try_raises L upload written e /\
       msg = "Sorry, there was a problem processing your genotypes file."
             +:+ nl +:+ " " +:+ exn_str e /\
       r = Raise (UnboundLocalError "userdf")) /\
  (forall path content, file_write path content ∈ tr ->
     path = "user_snps_file.txt" /\
     exists upload, file_uploader ui = Some upload /\
                    (content = "" \/ content = upload)) /\
  (forall body, st_text body ∈ tr ->
     exists upload userdf,
       file_uploader ui = Some upload /\
       open_w L "user_snps_file.txt" = Ok tt /\
       copyfileobj L upload = Ok tt /\
       SNPs L upload = Ok userdf).
Proof.
  revert tr r. unfold main.
  destruct (file_uploader ui) as [upload|]; intros tr r; repeat run_step.
  all: intros [= <- <-]; repeat match goal with u : unit |- _ => destruct u end.
  all: split_and!.
  all: try (intros msg Hin; find_chart Hin;
            eexists _, _, _;
            split_and!; [reflexivity|solve_try_raises|reflexivity|reflexivity]).
  all: try (intros path content Hin; find_chart Hin;
            (split; [reflexivity|]); eexists; (split; [reflexivity|]);
            first [by left|by right]).
  all: try (intros body Hin; find_chart Hin;
            eexists _, _; split_and!; first [reflexivity|eassumption]).
Qed.

Lemma main_upload_effects_witness :
  (forall msg,
     st_error msg ∈ (main Demo.libs_read_only (Demo.ui (Some "ok")) []).1 ->
     exists upload written e,
       file_uploader (Demo.ui (Some "ok")) = Some upload /\
       try_raises Demo.libs_read_only upload written e /\
       msg = "Sorry, there was a problem processing your genotypes file."
             +:+ nl +:+ " " +:+ exn_str e /\
       (main Demo.libs_read_only (Demo.ui (Some "ok")) []).2
         = Raise (UnboundLocalError "userdf")) /\
  (main Demo.libs_read_only (Demo.ui (Some "ok")) []).1
    = [st_markdown ("# ezancestry" +:+ nl);
       st_error ("Sorry, there was a problem processing your genotypes file."
                 +:+ nl +:+ " Permission denied")].
Proof.
  split.
  - apply (main_upload_effects Demo.libs_read_only (Demo.ui (Some "ok"))
             (main Demo.libs_read_only (Demo.ui (Some "ok")) []).1
             (main Demo.libs_read_only (Demo.ui (Some "ok")) []).2).
    vm_compute; reflexivity.
  - vm_compute; reflexivity.
Defined.

(** X13. No failure of the reference pipeline is handled: when reading
    the introduction raises, [main] stops with that exception and an empty
    page; when loading the sample metadata, loading the genotype table or
    the dimensionality reduction raises, it stops with that exception and
    the page holds the introduction alone: no chart and no error message,
    with or without an upload. *)
Theorem main_reference_failure (L : Libs) (ui : Sidebar) (e : exn) :
  (get_file_content_as_string L "intro.md" = Raise e ->
   main L ui [] = ([], Raise e)) /\
  (forall readme_text,
     get_file_content_as_string L "intro.md" = Ok readme_text ->
     get_1kg_samples L = Raise e ->
     main L ui [] = ([st_markdown readme_text], Raise e)) /\
  (forall readme_text dfsamples,
     get_file_content_as_string L "intro.md" = Ok readme_text ->
     get_1kg_samples L = Ok dfsamples ->
     vcf2df L (panel_file (aisnp_radio ui)) dfsamples = Raise e ->
     main L ui [] = ([st_markdown readme_text], Raise e)) /\
  (forall readme_text dfsamples aisnps_1kg X_encoded encoder,
     get_file_content_as_string L "intro.md" = Ok readme_text ->
     get_1kg_samples L = Ok dfsamples ->
     vcf2df L (panel_file (aisnp_radio ui)) dfsamples = Ok aisnps_1kg ->
     encode_genotypes aisnps_1kg = Ok (X_encoded, encoder) ->
     dimensionality_reduction L X_encoded (reduction_label (reduction_radio ui))
       = Raise e ->
     main L ui [] = ([st_markdown readme_text], Raise e)).
Proof.
  split_and!; intros;
    match goal with
    | |- _ = ?page => enough (forall out, main L ui [] = out -> out = page) by auto
    end;
    intros out; unfold main; repeat run_step; by intros <-.
Qed.

Lemma main_reference_failure_witness :
  main Demo.libs_no_panel (Demo.ui (Some "ok")) []
    = ([st_markdown ("# ezancestry" +:+ nl)],
       Raise (OSError "No such file or directory")).
Proof.
  apply (proj1 (proj2 (main_reference_failure Demo.libs_no_panel
                         (Demo.ui (Some "ok"))
                         (OSError "No such file or directory")))).
  - vm_compute; reflexivity.
  - vm_compute; reflexivity.
Defined.

Lemma loc_set_label (df df' : DataFrame) (k : string) (row : list cell) :
  loc_set df k row = Ok df' -> k ∈ index df'.
Proof.
  unfold loc_set. case_decide; [|done]. case_decide; intros [= <-]; simpl.
  - done.
  - apply elem_of_app. right. apply list_elem_of_here.
Qed.

Lemma chart_with_upload (X : list (list cell)) (dfsamples dfsamples_me : DataFrame)
  (row : list cell) (pop : string) (fig : Figure) :
  loc_set dfsamples "me" row = Ok dfsamples_me ->
  plot_3d X dfsamples_me pop = Ok fig ->
  fig_color fig = pop /\ columns (fig_data fig) = plot_columns /\
  "me" ∈ index (fig_data fig) /\ fig_marker_size fig = None.
Proof.
  intros Hme%loc_set_label Hfig.
  apply plot_3d_closed_form in Hfig as (-> & _). simpl.
  by rewrite decide_True.
Qed.

Lemma chart_without_upload (X : list (list cell)) (dfsamples : DataFrame)
  (pop : string) (fig : Figure) :
  plot_3d X dfsamples pop = Ok fig ->
  fig_color fig = pop /\ columns (fig_data fig) = plot_columns /\
  index (fig_data fig) = index dfsamples /\
  (fig_marker_size fig = Some 2%nat <-> "me" ∉ index dfsamples).
Proof.
  intros Hfig. apply plot_3d_closed_form in Hfig as (-> & _). simpl.
  split_and!; try done. case_decide; split; done.
Qed.

(** X14. The chart [main] renders. Every chart on the page is coloured by
    the selected population level and plots the seven plot columns. In a
    run with an upload its table has a row labelled "me" (the user's
    point, drawn with the large marker) and no uniform marker size is
    forced; in a run without upload its rows are the rows of the sample
    metadata, and the uniform marker size 2 is forced exactly when no
    sample is called "me". *)
Theorem main_chart_highlight (L : Libs) (ui : Sidebar) (tr : list effect)
  (r : result unit) (fig : Figure) :
  main L ui [] = (tr, r) ->
  st_plotly_chart fig ∈ tr ->
  fig_color fig = level_label (level_radio ui) /\
  columns (fig_data fig) = plot_columns /\
  match file_uploader ui with
  | Some _ => "me" ∈ index (fig_data fig) /\ fig_marker_size fig = None
  | None =>
      exists dfsamples,
        get_1kg_samples L = Ok dfsamples /\
        index (fig_data fig) = index dfsamples /\
        (fig_marker_size fig = Some 2%nat <-> "me" ∉ index dfsamples)
  end.
Proof.
  revert tr r. unfold main.
  destruct (file_uploader ui) as [upload|]; intros tr r; repeat run_step.
  all: intros [= <- <-] Hin; find_chart Hin.
  all: match goal with
       | Hme : loc_set _ "me" _ = Ok _, Hfig : plot_3d _ _ _ = Ok _ |- _ =>
           destruct (chart_with_upload _ _ _ _ _ _ Hme Hfig) as (? & ? & ? & ?);
           by split_and!
       | Hfig : plot_3d _ _ _ = Ok _ |- _ =>
           destruct (chart_without_upload _ _ _ _ Hfig) as (? & ? & ? & ?);
           split_and!; [done..|]; eexists; by split_and!
       end.
Qed.

Lemma main_chart_highlight_witness :
  exists fig,
    st_plotly_chart fig ∈ (main Demo.libs (Demo.ui (Some "ok")) []).1 /\
    "me" ∈ index (fig_data fig) /\ fig_marker_size fig = None.
Proof.
  eexists. split.
  - vm_compute. rendered.
  - match goal with
    | |- context [fig_data ?f] =>
        destruct (main_chart_highlight Demo.libs (Demo.ui (Some "ok"))
                    (main Demo.libs (Demo.ui (Some "ok")) []).1
                    (main Demo.libs (Demo.ui (Some "ok")) []).2 f)
          as (_ & _ & Hme)
    end.
    + vm_compute; reflexivity.
    + vm_compute. rendered.
    + exact Hme.
Defined.

(** X15. The page of a complete run with an upload. When every step
    succeeds, [main] ends normally and the page holds, in this order: the
    introduction, (the file user_snps_file.txt emptied and then filled with
    the upload,) the chart,
    the heading and the text with the first predicted label, the heading
    and the one-row table of the first probability vector under the
    classes of the classifier, the user's genotypes when asked for, the
    reference genotypes with the user's record appended when asked for,
    and the details. *)
Theorem main_upload_page (L : Libs) (ui : Sidebar) (upload : string)
  (readme_text details : string)
  (dfsamples aisnps_1kg X_encoded X_reference : DataFrame)
  (encoder : OneHotEncoder) (reducer : estimator * Reducer L)
  (userdf : gmap string SNP)
  (user_record appended user_encoded dfsamples_me : DataFrame)
  (reference user X_combined user_reduced X_reduced : ndarray)
  (user_imputed probs : list float64) (probabilities : ndarray)
  (y labels : list cell) (user_pop : cell) (knn : Classifier L) (fig : Figure) :
  file_uploader ui = Some upload ->
  get_file_content_as_string L "intro.md" = Ok readme_text ->
  get_1kg_samples L = Ok dfsamples ->
  vcf2df L (panel_file (aisnp_radio ui)) dfsamples = Ok aisnps_1kg ->
  encode_genotypes aisnps_1kg = Ok (X_encoded, encoder) ->
  dimensionality_reduction L X_encoded (reduction_label (reduction_radio ui))
    = Ok (Some X_reference, Some reducer) ->
  open_w L "user_snps_file.txt" = Ok tt ->
  copyfileobj L upload = Ok tt ->
  SNPs L upload = Ok userdf ->
  filter_user_genotypes userdf aisnps_1kg = (user_record, appended) ->
  ohe_transform encoder user_record = Ok user_encoded ->
  asarray L (values X_encoded) = Ok reference ->
  asarray L (values user_encoded) = Ok user ->
  concatenate reference user = Ok X_combined ->
  impute_missing L X_combined = Ok user_imputed ->
  reducer_transform L reducer [user_imputed] = Ok user_reduced ->
  getitem dfsamples (level_label (level_radio ui)) = Ok y ->
  asarray L (values X_reference) = Ok X_reduced ->
  knn_fit L {| n_neighbors := 9; weights := "distance"; n_jobs := 2 |}
          X_reduced y = Ok knn ->
  (exists stacked, concatenate X_reduced user_reduced = Ok stacked /\
     loc_set dfsamples "me" [Str "me"; Str "me"; Str "me"] = Ok dfsamples_me /\
     plot_3d (of_array stacked) dfsamples_me (level_label (level_radio ui))
       = Ok fig) ->
  predict L knn user_reduced = Ok (user_pop :: labels) ->
  predict_proba L knn user_reduced = Ok (probs :: probabilities) ->
  length probs = length (classes_ L knn) ->
  get_file_content_as_string L "details.md" = Ok details ->
  main L ui [] =
    ([st_markdown readme_text;
      file_write "user_snps_file.txt" "";
      file_write "user_snps_file.txt" upload;
      st_plotly_chart fig;
      st_subheader ("Your predicted " +:+ level_label (level_radio ui));
      st_text ("Your predicted population using KNN classifier is "
               +:+ label_of user_pop);
      st_subheader ("Your predicted " +:+ level_label (level_radio ui)
                    +:+ " probabilities");
      st_dataframe {| index := ["me"];
                      columns := map label_of (classes_ L knn);
                      values := [map Flt probs] |}]
     ++ (if show_user_gts ui
         then [st_subheader "Genotypes of Ancestry-Informative SNPs in Your Sample";
               st_dataframe user_record]
         else [])
     ++ (if show_1kg ui
         then [st_subheader "Genotypes of Ancestry-Informative SNPs in 1000 Genomes Project Samples";
               st_dataframe appended]
         else [])
     ++ [st_markdown details], Ok tt).
Proof.
  intros Hup Hintro Hsamples Hvcf Henc Hred Hopen Hcopy Hparse Hfilter Huser
    Href Husr Hcat Himp Htr Hy HX Hfit (stacked & Hstack & Hme & Hplot) Hpred
    Hproba Hlen Hdetails.
  assert ((a ← asarray L (values X_encoded);
           b ← asarray L (values user_encoded); concatenate a b) = Ok X_combined)
    as Hcombined by (rewrite Href; simpl; by rewrite Husr).
  assert ((y ← getitem dfsamples (level_label (level_radio ui));
           X ← asarray L (values X_reference);
           knn_fit L {| n_neighbors := 9; weights := "distance"; n_jobs := 2 |}
                   X y) = Ok knn)
    as Hknn by (rewrite Hy; simpl; by rewrite HX).
  assert ((X ← asarray L (values X_reference); concatenate X user_reduced)
          = Ok stacked) as Hstacked by by rewrite HX.
  assert ((labels ← predict L knn user_reduced; getitem0 labels) = Ok user_pop)
    as Hpop by by rewrite Hpred.
  assert ((probs ← getitem0 (probs :: probabilities);
           DataFrame_of [map Flt probs] (map label_of (classes_ L knn)) ["me"])
          = Ok {| index := ["me"];
                  columns := map label_of (classes_ L knn);
                  values := [map Flt probs] |}) as Hdf.
  { simpl. unfold DataFrame_of, has_shape. simpl.
    rewrite !length_map, Hlen, bool_decide_eq_true_2 by done. done. }
  match goal with
  | |- _ = ?page => enough (forall out, main L ui [] = out -> out = page) by auto
  end.
  intros out. unfold main. rewrite Hup. repeat run_step_known; by intros <-.
Qed.

Lemma main_upload_page_witness :
  exists fig,
    main Demo.libs (Demo.ui (Some "ok")) [] =
      ([st_markdown ("# ezancestry" +:+ nl);
        file_write "user_snps_file.txt" "";
        file_write "user_snps_file.txt" "ok";
        st_plotly_chart fig;
        st_subheader "Your predicted population";
        st_text "Your predicted population using KNN classifier is GBR";
        st_subheader "Your predicted population probabilities";
        st_dataframe {| index := ["me"]; columns := ["GBR"; "YRI"];
                        values := [ [Flt (Fin 1); Flt (Fin 0)] ] |};
        st_subheader "Genotypes of Ancestry-Informative SNPs in Your Sample";
        st_dataframe {| index := ["your_sample"];
                        columns := ["rs1"; "rs2"; "population";
                                    "super population"; "gender"];
                        values := [ [Str "AG"; null; null; null; null] ] |};
        st_markdown "details"], Ok tt).
Proof.
  eexists.
  eapply (main_upload_page Demo.libs (Demo.ui (Some "ok")) "ok")
    with (user_pop := Str "GBR") (knn := [Str "GBR"; Str "YRI"])
         (probs := [Fin 1; Fin 0]) (labels := []) (probabilities := []);
    try (vm_compute; reflexivity).
  eexists. split_and!; vm_compute; reflexivity.
Defined.

Lemma embedding_reference (X meta : list (list cell)) :
  Forall (fun row => length row = 3%nat) X ->
  length X = length meta ->
  map (take 3) (zip_with app X meta) = X.
Proof.
  intros Hrows Hlen.
  pose proof (take_embedding_prefix X [] meta Hrows) as Hp.
  rewrite app_nil_r in Hp. specialize (Hp Hlen).
  rewrite take_ge in Hp; [done|].
  rewrite length_map, length_zip_with. lia.
Qed.

(** X19. The chart of a run with an upload. When every step up to the
    chart succeeds (which t-SNE excludes), the chart is rendered after the
    introduction, and it plots the rows of the table
    [dimensionality_reduction] returned for the reference samples, as they
    are, followed by what [transform] of the reducer fitted there returns
    for the imputed user record; so its first rows are the rows a run
    without upload plots. *)
Theorem main_upload_embedding (L : Libs) (ui : Sidebar) (upload : string)
  (readme_text : string)
  (dfsamples aisnps_1kg X_encoded X_reference : DataFrame)
  (encoder : OneHotEncoder) (reducer : estimator * Reducer L)
  (userdf : gmap string SNP)
  (user_record appended user_encoded dfsamples_me : DataFrame)
  (reference user X_combined user_reduced X_reduced stacked : ndarray)
  (user_imputed : list float64) (y : list cell) (knn : Classifier L)
  (fig : Figure) :
  file_uploader ui = Some upload ->
  get_file_content_as_string L "intro.md" = Ok readme_text ->
  get_1kg_samples L = Ok dfsamples ->
  vcf2df L (panel_file (aisnp_radio ui)) dfsamples = Ok aisnps_1kg ->
  encode_genotypes aisnps_1kg = Ok (X_encoded, encoder) ->
  dimensionality_reduction L X_encoded (reduction_label (reduction_radio ui))
    = Ok (Some X_reference, Some reducer) ->
  open_w L "user_snps_file.txt" = Ok tt ->
  copyfileobj L upload = Ok tt ->
  SNPs L upload = Ok userdf ->
  filter_user_genotypes userdf aisnps_1kg = (user_record, appended) ->
  ohe_transform encoder user_record = Ok user_encoded ->
  asarray L (values X_encoded) = Ok reference ->
  asarray L (values user_encoded) = Ok user ->
  concatenate reference user = Ok X_combined ->
  impute_missing L X_combined = Ok user_imputed ->
  reducer_transform L reducer [user_imputed] = Ok user_reduced ->
  getitem dfsamples (level_label (level_radio ui)) = Ok y ->
  asarray L (values X_reference) = Ok X_reduced ->
  knn_fit L {| n_neighbors := 9; weights := "distance"; n_jobs := 2 |}
          X_reduced y = Ok knn ->
  concatenate X_reduced user_reduced = Ok stacked ->
  loc_set dfsamples "me" [Str "me"; Str "me"; Str "me"] = Ok dfsamples_me ->
  plot_3d (of_array stacked) dfsamples_me (level_label (level_radio ui))
    = Ok fig ->
  (exists tr r,
     main L ui [] =
       ([st_markdown readme_text;
         file_write "user_snps_file.txt" "";
         file_write "user_snps_file.txt" upload;
         st_plotly_chart fig] ++ tr, r)) /\
  reduction_radio ui <> radio_TSNE /\
  plot_3d (values X_reference ++ of_array user_reduced) dfsamples_me
          (level_label (level_radio ui)) = Ok fig /\
  take (length (values X_reference)) (embedding fig) = values X_reference /\
  (forall fig0,
     plot_3d (values X_reference) dfsamples (level_label (level_radio ui))
       = Ok fig0 ->
     embedding fig0 = values X_reference).
Proof.
  intros Hup Hintro Hsamples Hvcf Henc Hred Hopen Hcopy Hparse Hfilter Huser
    Href Husr Hcat Himp Htr Hy HX Hfit Hstack Hme Hplot.
  assert ((a ← asarray L (values X_encoded);
           b ← asarray L (values user_encoded); concatenate a b) = Ok X_combined)
    as Hcombined by (rewrite Href; simpl; by rewrite Husr).
  assert ((y ← getitem dfsamples (level_label (level_radio ui));
           X ← asarray L (values X_reference);
           knn_fit L {| n_neighbors := 9; weights := "distance"; n_jobs := 2 |}
                   X y) = Ok knn)
    as Hknn by (rewrite Hy; simpl; by rewrite HX).
  assert ((X ← asarray L (values X_reference); concatenate X user_reduced)
          = Ok stacked) as Hstacked by by rewrite HX.
  split_and!.
  - enough (forall out, main L ui [] = out ->
              exists tr r,
                out = ([st_markdown readme_text;
                        file_write "user_snps_file.txt" "";
                        file_write "user_snps_file.txt" upload;
                        st_plotly_chart fig] ++ tr, r)) as Hrun
      by exact (Hrun _ eq_refl).
    intros out. unfold main. rewrite Hup. repeat run_step_known.
    all: intros <-; eexists _, _; cbn [app]; reflexivity.
  - intros Hradio. rewrite Hradio in Hred. cbn [reduction_label] in Hred.
    by rewrite (reducer_transform_tsne _ _ _ _ _ Hred) in Htr.
  - by eapply reference_rows_plotted.
  - by eapply reference_rows_plotted.
  - intros fig0 [Hlen0 ->]%plot_3d_embedding.
    apply dimensionality_reduction_Some in Hred as (_ & _ & _ & Hrows & _).
    by apply embedding_reference.
Qed.

Lemma main_upload_embedding_witness :
  exists fig,
    (exists tr r,
       main Demo.libs (Demo.ui (Some "ok")) [] =
         ([st_markdown ("# ezancestry" +:+ nl);
           file_write "user_snps_file.txt" "";
           file_write "user_snps_file.txt" "ok";
           st_plotly_chart fig] ++ tr, r)) /\
    take 2 (embedding fig) =
      [ [Flt (Fin 1); Flt (Fin 0); Flt (Fin 1)];
        [Flt (Fin 0); Flt (Fin 1); Flt (Fin 0)] ].
Proof.
  eexists.
  edestruct (main_upload_embedding Demo.libs (Demo.ui (Some "ok")) "ok")
    as (Hrun & _ & _ & Hrows & _);
    [vm_compute; reflexivity..|].
  split; [exact Hrun|exact Hrows].
Defined.

(** ** The markdown files *)

Lemma string_app_nil_r (s : string) : s +:+ "" = s.
Proof.
  induction s as [|a s IH]; [done|].
  change (String a (s +:+ "") = String a s). by f_equal.
Qed.

Lemma string_app_assoc (s t u : string) : (s +:+ t) +:+ u = s +:+ (t +:+ u).
Proof.
  induction s as [|a s IH]; [done|].
  change (String a ((s +:+ t) +:+ u) = String a (s +:+ (t +:+ u))). by f_equal.
Qed.

Lemma string_concat_cons (line : string) (lines : list string) :
  String.concat "" (line :: lines) = line +:+ String.concat "" lines.
Proof. destruct lines; [by rewrite string_app_nil_r|done]. Qed.

Lemma read_loop (acc : string) (lines : list string) :
  foldl (fun acc line => acc +:+ line) acc lines
  = acc +:+ String.concat "" lines.
Proof.
  revert acc. induction lines as [|line lines IH]; intros acc.
  - by rewrite string_app_nil_r.
  - cbn [foldl]. by rewrite IH, string_app_assoc, string_concat_cons.
Qed.

(** X16. [get_file_content_as_string] returns the lines of the file joined
    in order with nothing between them, so as many characters as the lines
    have together, and the content of two files read one after the other
    is the content of their lines read as one; a file that cannot be
    opened gives the exception of the opening. *)
Theorem get_file_content_as_string_concat (L : Libs) (mdfile : string) :
  (forall e, open_lines L mdfile = Raise e ->
     get_file_content_as_string L mdfile = Raise e) /\
  (forall lines, open_lines L mdfile = Ok lines ->
     get_file_content_as_string L mdfile = Ok (String.concat "" lines) /\
     String.length (String.concat "" lines)
       = sum_list (map String.length lines)) /\
  (forall lines1 lines2,
     String.concat "" (lines1 ++ lines2)
       = String.concat "" lines1 +:+ String.concat "" lines2).
Proof.
  assert (forall lines, String.concat "" lines
            = foldl (fun acc line => acc +:+ line) "" lines) as Hfold
    by (intros lines; by rewrite read_loop).
  split_and!.
  - intros e He. unfold get_file_content_as_string. by rewrite He.
  - intros lines Hlines. unfold get_file_content_as_string. rewrite Hlines.
    cbn [mbind result_bind]. rewrite <- Hfold. split; [done|].
    clear Hlines. induction lines as [|line lines IH]; [done|].
    rewrite string_concat_cons, string_length_app.
    cbn [map sum_list sum_list_with]. unfold id. by rewrite IH.
  - intros lines1 lines2.
    by rewrite (Hfold (lines1 ++ lines2)), foldl_app, read_loop, <- Hfold.
Qed.

(** ** The reducer, again *)

Lemma to_float_Raise (L : Libs) (row : list cell) (e : exn) :
  mapM (to_float L) row = Raise e -> exists msg, e = ValueError msg.
Proof.
  induction row as [|c row IH]; [done|]. simpl.
  destruct (to_float L c) as [x|e'] eqn:Hc; simpl.
  - destruct (mapM (to_float L) row); [done|]. intros [= <-]. by apply IH.
  - intros [= <-]. destruct c as [s|x]; [|done]. simpl in Hc.
    destruct (float_of_str L s); [done|]. injection Hc as <-. eauto.
Qed.

Lemma asarray_Raise (L : Libs) (data : list (list cell)) (e : exn) :
  asarray L data = Raise e -> exists msg, e = ValueError msg.
Proof.
  unfold asarray. induction data as [|row data IH]; [done|]. simpl.
  destruct (mapM (to_float L) row) as [xs|e'] eqn:Hrow; simpl.
  - destruct (mapM (mapM (to_float L)) data); [done|]. intros [= <-].
    by apply IH.
  - intros [= <-]. by eapply to_float_Raise.
Qed.

(** X17. How [dimensionality_reduction] fails for PCA, UMAP and t-SNE: a
    table with a string cell that [float] does not accept is refused with
    [ValueError], as is every table that does not convert to a float array;
    an exception of the library's [fit_transform] comes out unchanged; and
    when the library returns a matrix that has not one row per row label of
    the table or not three cells in every row, the function raises
    [ValueError] for the shape: it returns no table of another shape. *)
Theorem dimensionality_reduction_errors (L : Libs) (X : DataFrame)
  (algorithm : string) (est : estimator) :
  selected algorithm est ->
  (forall e, asarray L (values X) = Raise e ->
     dimensionality_reduction L X algorithm = Raise e /\
     exists msg, e = ValueError msg) /\
  (forall row s, row ∈ values X -> Str s ∈ row -> float_of_str L s = None ->
     exists msg, dimensionality_reduction L X algorithm = Raise (ValueError msg)) /\
  (forall X_values e,
     asarray L (values X) = Ok X_values ->
     fit_transform L est X_values = Raise e ->
     dimensionality_reduction L X algorithm = Raise e) /\
  (forall X_values X_reduced reducer,
     asarray L (values X) = Ok X_values ->
     fit_transform L est X_values = Ok (X_reduced, reducer) ->
     has_shape (length (index X)) 3 X_reduced = false ->
     exists msg, dimensionality_reduction L X algorithm = Raise (ValueError msg)).
Proof.
  intros Hest. rewrite (dimensionality_reduction_known L X _ est Hest).
  split_and!.
  - intros e He. rewrite He. split; [done|]. by eapply asarray_Raise.
  - intros row s Hrow Hs Hnone.
    destruct (mapM_Raise (to_float L) row) as (c & e & _ & _ & Hr).
    { exists (Str s). split; [done|]. simpl. rewrite Hnone. eauto. }
    destruct (mapM_Raise (mapM (to_float L)) (values X)) as (row' & e' & _ & _ & Ha).
    { exists row. eauto. }
    fold (asarray L (values X)) in Ha. rewrite Ha.
    destruct (asarray_Raise _ _ _ Ha) as [msg ->]. simpl. eauto.
  - intros X_values e -> Hfit. simpl. by rewrite Hfit.
  - intros X_values X_reduced reducer -> Hfit Hshape. simpl. rewrite Hfit. simpl.
    unfold DataFrame_of. rewrite of_array_shape. simpl length.
    rewrite Hshape. eauto.
Qed.

Lemma dimensionality_reduction_errors_witness :
  exists msg,
    dimensionality_reduction Demo.libs Demo.genotypes "PCA"
      = Raise (ValueError msg).
Proof.
  apply (proj1 (proj2 (dimensionality_reduction_errors Demo.libs Demo.genotypes
                         "PCA" (PCA 3) (or_introl (conj eq_refl eq_refl))))
               [Str "AA"; Str "CC"] "AA").
  - apply list_elem_of_here.
  - apply list_elem_of_here.
  - reflexivity.
Defined.

(** ** What the encoder is fitted on *)

Lemma vcf2df_columns (L : Libs) (vcf_fname : string) (dfsamples df : DataFrame) :
  vcf2df L vcf_fname dfsamples = Ok df ->
  exists cs, columns df = cs ++ columns dfsamples.
Proof.
  unfold vcf2df. intros H.
  apply result_bind_Ok in H as (vcf_file & _ & H).
  apply result_bind_Ok in H as (df1 & _ & H).
  apply result_bind_Ok in H as (df2 & H & [= <-]).
  unfold join_outer in H. destruct (existsb _ _); [done|].
  repeat case_decide; injection H as <-; by exists (columns df1).
Qed.

(** X18. The sample metadata is encoded with the genotypes: the table
    [vcf2df] returns carries the columns of the metadata table it was given,
    and [encode_genotypes] encodes every column of its argument, so for each
    metadata column (population, super population and gender in the script)
    the fitted encoder lists the column with the categories found in it and
    the encoded table has its indicator columns. *)
Theorem sample_metadata_encoded (L : Libs) (vcf_fname : string)
  (dfsamples aisnps_1kg X : DataFrame) (ohe : OneHotEncoder) (c : string) :
  vcf2df L vcf_fname dfsamples = Ok aisnps_1kg ->
  encode_genotypes aisnps_1kg = Ok (X, ohe) ->
  c ∈ columns dfsamples ->
  c ∈ cols ohe /\
  exists col,
    getitem aisnps_1kg c = Ok col /\
    (c, categories col) ∈ mapping ohe /\
    forall name, name ∈ indicator_names c (categories col) -> name ∈ columns X.
Proof.
  intros Hvcf Henc Hc.
  apply vcf2df_columns in Hvcf as [cs Hcols].
  assert (c ∈ columns aisnps_1kg) as Hin.
  { rewrite Hcols, elem_of_app. by right. }
  unfold encode_genotypes, ohe_fit_transform in Henc.
  apply result_bind_Ok in Henc as ([X0 ohe0] & Henc & [= <- <-]).
  apply result_bind_Ok in Henc as (ohe1 & Hfit & Henc).
  apply result_bind_Ok in Henc as (X1 & Htr & [= <- <-]).
  unfold ohe_fit in Hfit.
  apply result_bind_Ok in Hfit as (m & Hm & [= <-]).
  cbn [cols mapping]. split; [done|].
  apply mapM_Ok in Hm.
  apply list_elem_of_lookup in Hin as [i Hi].
  destruct (Forall2_lookup_l _ _ _ _ _ Hm Hi) as (b & Hb & Hf).
  apply result_bind_Ok in Hf as (col & Hcol & [= <-]).
  exists col. split; [done|].
  split; [by eapply list_elem_of_lookup_2|].
  intros name Hname.
  assert (columns (reindex X1 (index aisnps_1kg)) = columns X1) as ->.
  { unfold reindex. by case_decide. }
  unfold ohe_transform in Htr. case_decide; [|done].
  apply result_bind_Ok in Htr as (blocks & Hblocks & [= <-]).
  apply ohe_blocks in Hblocks as [-> _]. cbn [mapping].
  apply list_elem_of_In, in_flat_map. exists (c, categories col).
  split; [apply list_elem_of_In; by eapply list_elem_of_lookup_2|].
  by apply list_elem_of_In.
Qed.

Lemma sample_metadata_encoded_witness :
  exists aisnps_1kg X ohe,
    vcf2df Demo.libs "data/Kidd.55AISNP.1kG.vcf" Demo.dfsamples3 = Ok aisnps_1kg /\
    encode_genotypes aisnps_1kg = Ok (X, ohe) /\
    "population" ∈ cols ohe.
Proof.
  eexists _, _, _. split; [vm_compute; reflexivity|].
  split; [vm_compute; reflexivity|].
  eapply (sample_metadata_encoded Demo.libs "data/Kidd.55AISNP.1kG.vcf"
            Demo.dfsamples3).
  - vm_compute; reflexivity.
  - vm_compute; reflexivity.
  - apply list_elem_of_here.
Defined.
